(** * shortfin host array ops: dtype promotion, dispatch and conversion kernels

    A shallow embedding of [shortfin/python/array_host_ops.cc]:
    the emulated [bfloat16_t] scalar, [DTypePromotionRank] and
    [PromoteArithmeticTypes], the macro-generated dispatch tables, the
    conversion functors and [GenericElementwiseConvert], the integer lane
    of [ElementwiseOperation], and the operations bound by
    [BindArrayHostOps]: argmax, argpartition, exp, log, log_softmax, softmax
    and transpose, over any implementation of the xtensor functions they
    call. *)

From Stdlib Require Import ZArith Bool List String Ascii Lia.
From Stdlib Require Import DecimalString.
Import ListNotations.

Local Open Scope string_scope.
Local Open Scope Z_scope.

(* ------------------------------------------------------------------------- *)
(** ** Exceptions *)

(** Every failure the file raises itself is a C++ [std::invalid_argument]
    carrying a message; the kinds of failure differ only by that message.
    [broadcast_error] is the one xtensor raises on incompatible shapes. *)
Inductive exn : Type :=
| invalid_argument (what : string)
| broadcast_error.

Definition what_of (e : exn) : string :=
  match e with
  | invalid_argument w => w
  | broadcast_error => "Incompatible dimension of arrays"
  end.

(** A call that may throw: [inl] is the exception, [inr] the returned value. *)
Definition Result (A : Type) : Type := (exn + A)%type.

Definition OK {A : Type} (a : A) : Result A := inr a.
Definition throw {A : Type} (e : exn) : Result A := inl e.

(* ------------------------------------------------------------------------- *)
(** ** The dtype descriptor *)

(** Modelled from the spec: the [DType] class ([shortfin/array/dtype.h]) is
    not part of the sources at hand.  The tags are the ones this file names
    in its [case DType::...()] labels, together with one boolean and two
    complex tags standing for the two remaining classes of the descriptor's
    classification (boolean, integer, float, complex). *)
Inductive DType : Type :=
| bool8
| uint8 | int8 | uint16 | int16 | uint32 | int32 | uint64 | int64
| float8_e4m3fnuz | float8_e4m3fn | float16 | bfloat16 | float32 | float64
| complex64 | complex128.

Definition DType_eq_dec (a b : DType) : {a = b} + {a <> b}.
Proof. decide equality. Defined.

Definition DType_eqb (a b : DType) : bool :=
  if DType_eq_dec a b then true else false.

(** Modelled from the spec: the numerical classification of a descriptor,
    with the signedness of the integer class. *)
Inductive NumericalType : Type :=
| NUMERICAL_TYPE_BOOLEAN
| NUMERICAL_TYPE_INTEGER_SIGNED
| NUMERICAL_TYPE_INTEGER_UNSIGNED
| NUMERICAL_TYPE_FLOAT
| NUMERICAL_TYPE_COMPLEX.

(** Modelled from the spec: [DType::numerical_type()]. *)
Definition numerical_type (d : DType) : NumericalType :=
  match d with
  | bool8 => NUMERICAL_TYPE_BOOLEAN
  | uint8 | uint16 | uint32 | uint64 => NUMERICAL_TYPE_INTEGER_UNSIGNED
  | int8 | int16 | int32 | int64 => NUMERICAL_TYPE_INTEGER_SIGNED
  | float8_e4m3fnuz | float8_e4m3fn | float16 | bfloat16 | float32 | float64 =>
      NUMERICAL_TYPE_FLOAT
  | complex64 | complex128 => NUMERICAL_TYPE_COMPLEX
  end.

(** Modelled from the spec: the four classification queries of [DType]. *)
Definition is_boolean (d : DType) : bool :=
  match numerical_type d with NUMERICAL_TYPE_BOOLEAN => true | _ => false end.

Definition is_integer (d : DType) : bool :=
  match numerical_type d with
  | NUMERICAL_TYPE_INTEGER_SIGNED | NUMERICAL_TYPE_INTEGER_UNSIGNED => true
  | _ => false
  end.

Definition is_float (d : DType) : bool :=
  match numerical_type d with NUMERICAL_TYPE_FLOAT => true | _ => false end.

Definition is_complex (d : DType) : bool :=
  match numerical_type d with NUMERICAL_TYPE_COMPLEX => true | _ => false end.

(** Modelled from the spec: the test
    [iree_all_bits_set(d.numerical_type(), IREE_HAL_NUMERICAL_TYPE_INTEGER_UNSIGNED)]. *)
Definition is_unsigned_integer (d : DType) : bool :=
  match numerical_type d with
  | NUMERICAL_TYPE_INTEGER_UNSIGNED => true
  | _ => false
  end.

(** Modelled from the spec: [DType::bit_count()]. *)
Definition bit_count (d : DType) : Z :=
  match d with
  | bool8 | uint8 | int8 | float8_e4m3fnuz | float8_e4m3fn => 8
  | uint16 | int16 | float16 | bfloat16 => 16
  | uint32 | int32 | float32 => 32
  | uint64 | int64 | float64 | complex64 => 64
  | complex128 => 128
  end.

(** Modelled from the spec: [DType::name()], the identifier of the tag. *)
Definition name (d : DType) : string :=
  match d with
  | bool8 => "bool8"
  | uint8 => "uint8" | int8 => "int8"
  | uint16 => "uint16" | int16 => "int16"
  | uint32 => "uint32" | int32 => "int32"
  | uint64 => "uint64" | int64 => "int64"
  | float8_e4m3fnuz => "float8_e4m3fnuz" | float8_e4m3fn => "float8_e4m3fn"
  | float16 => "float16" | bfloat16 => "bfloat16"
  | float32 => "float32" | float64 => "float64"
  | complex64 => "complex64" | complex128 => "complex128"
  end.

(* ------------------------------------------------------------------------- *)
(** ** Arithmetic type promotion *)

Definition DTypePromotionRank (dtype : DType) : Z :=
  let rank := 1 in
  let rank :=
    if is_boolean dtype then rank * 1000
    else if is_integer dtype then rank * 2000
    else if is_float dtype then rank * 4000
    else if is_complex dtype then rank * 8000
    else rank in
  rank + bit_count dtype.

(** The local [promoted_dtype] of [PromoteArithmeticTypes]:
    [lhs_rank < rhs_rank ? *rhs_dtype : *lhs_dtype]. *)
Definition promoted_dtype (lhs rhs : DType) : DType :=
  let lhs_rank := DTypePromotionRank lhs in
  let rhs_rank := DTypePromotionRank rhs in
  if lhs_rank <? rhs_rank then rhs else lhs.

(** The [switch (promoted_dtype)] taken on a signed/unsigned mismatch. *)
Definition promote_to_next_signed (promoted : DType) : DType :=
  match promoted with
  | uint8 | int8 => int16
  | uint16 | int16 => int32
  | uint32 | int32 => int64
  | _ => int64
  end.

Definition no_array_message : string :=
  "Elementwise operators require at least one argument to be a device_array".

Definition PromoteArithmeticTypes (lhs_dtype rhs_dtype : option DType)
  : Result DType :=
  match lhs_dtype, rhs_dtype with
  | None, None => throw (invalid_argument no_array_message)
  | None, Some rhs => OK rhs
  | Some lhs, None => OK lhs
  | Some lhs, Some rhs =>
      let promoted := promoted_dtype lhs rhs in
      if is_integer promoted then
        let lhs_unsigned := is_unsigned_integer lhs in
        let rhs_unsigned := is_unsigned_integer rhs in
        if (lhs_unsigned || rhs_unsigned) && negb (lhs_unsigned && rhs_unsigned)
        then OK (promote_to_next_signed promoted)
        else OK promoted
      else OK promoted
  end.

(** The spec's wording of the rank, to be compared with the if-chain of
    [DTypePromotionRank]: the weight of each class of the classification. *)
Definition classification_weight (d : DType) : Z :=
  match numerical_type d with
  | NUMERICAL_TYPE_BOOLEAN => 1000
  | NUMERICAL_TYPE_INTEGER_SIGNED | NUMERICAL_TYPE_INTEGER_UNSIGNED => 2000
  | NUMERICAL_TYPE_FLOAT => 4000
  | NUMERICAL_TYPE_COMPLEX => 8000
  end.

(** The spec's wording of the escalation, to be compared with the switch of
    [PromoteArithmeticTypes]: the signed integer tag of a given width, and
    the next larger width, saturating at 64 bits. *)
Definition signed_of_width (w : Z) : DType :=
  if w =? 8 then int8
  else if w =? 16 then int16
  else if w =? 32 then int32
  else int64.

Definition next_width (w : Z) : Z := Z.min 64 (2 * w).

(* ------------------------------------------------------------------------- *)
(** ** The emulated bfloat16 scalar *)

(** A 32-bit float is carried by its IEEE-754 bit pattern, the value that
    [std::bit_cast<uint32_t>] reads and [std::bit_cast<float>] writes. *)
Record float32_t : Type := Float32 { f32_bits : Z }.

Definition bit_cast_uint32 (f : float32_t) : Z := f32_bits f.
Definition bit_cast_float (temp : Z) : float32_t := Float32 temp.

(** [static_cast] to the unsigned types of 16 and 32 bits. *)
Definition static_cast_uint16 (z : Z) : Z := z mod 2 ^ 16.
Definition static_cast_uint32 (z : Z) : Z := z mod 2 ^ 32.

(** A well-formed float pattern and a well-formed 16-bit storage value. *)
Definition is_uint32 (z : Z) : Prop := 0 <= z < 2 ^ 32.
Definition is_uint16 (z : Z) : Prop := 0 <= z < 2 ^ 16.

Module bfloat16_t.

Record t : Type := Make { value : Z }.

(** [constexpr bfloat16_t() : value(0)]. *)
Definition zero : t := Make 0.

(** [explicit constexpr bfloat16_t(float f)]. *)
Definition of_float (f : float32_t) : t :=
  let temp := bit_cast_uint32 f in
  Make (static_cast_uint16 (Z.shiftr temp 16)).

(** [constexpr operator float()]; the shift is a [uint32_t] shift. *)
Definition to_float (b : t) : float32_t :=
  let temp := static_cast_uint32 (Z.shiftl (static_cast_uint32 (value b)) 16) in
  bit_cast_float temp.

End bfloat16_t.

(* ------------------------------------------------------------------------- *)
(** ** Element types and symbolic elements *)

(** The C++ element types the dispatch macros instantiate kernels at. *)
Module EltTy.

Inductive t : Type :=
| f8e4m3fnuz_t | f8e4m3fn_t | half | bfloat16_t | float | double
| uint8_t | int8_t | uint16_t | int16_t
| uint32_t | int32_t | uint64_t | int64_t.

(** Signedness and width of the integer element types. *)
Definition integer_info (ty : t) : option (bool * Z) :=
  match ty with
  | uint8_t => Some (false, 8) | int8_t => Some (true, 8)
  | uint16_t => Some (false, 16) | int16_t => Some (true, 16)
  | uint32_t => Some (false, 32) | int32_t => Some (true, 32)
  | uint64_t => Some (false, 64) | int64_t => Some (true, 64)
  | _ => None
  end.

(** The value a bit pattern (or an integer being converted) takes in the
    integer type [ty]: reduction modulo [2^w], two's complement when the
    type is signed.  [None] for the floating-point element types. *)
Definition wrap (ty : t) (z : Z) : option Z :=
  match integer_info ty with
  | Some (false, w) => Some (z mod 2 ^ w)
  | Some (true, w) => Some ((z + 2 ^ (w - 1)) mod 2 ^ w - 2 ^ (w - 1))
  | None => None
  end.

End EltTy.

(** The four nearest-integer operations: [xt::round], [xt::ceil],
    [xt::floor], [xt::trunc]. *)
Inductive NearestOp : Type := op_round | op_ceil | op_floor | op_trunc.

(** The four elementwise functors. *)
Inductive BinaryFunctor : Type :=
| AddFunctor | DivideFunctor | MultiplyFunctor | SubtractFunctor.

(** A bare host scalar handed over by the Python caller. *)
Inductive PyObject : Type :=
| PyLong (z : Z)
| PyFloat (bits : Z).

(** An array element, as the expression that computes it.  Floating-point
    arithmetic is not interpreted: a kernel's output records which typed
    operations were applied, in which order and at which element type. *)
Inductive Elem : Type :=
| Uninit                                   (* freshly allocated storage *)
| Bits (z : Z)                             (* a stored bit pattern *)
| View (ty : EltTy.t) (e : Elem)           (* read through [map_xtensor<ty>] *)
| Cast (ty : EltTy.t) (e : Elem)           (* [xt::cast<ty>] *)
| Nearest (op : NearestOp) (ty : EltTy.t) (e : Elem)
| FromPy (ty : EltTy.t) (o : PyObject)     (* [ConvertPyToEltTy(o, ty())] *)
| Binary (f : BinaryFunctor) (ty : EltTy.t) (a b : Elem).

Definition apply_functor (f : BinaryFunctor) (x y : Z) : option Z :=
  match f with
  | AddFunctor => Some (x + y)
  | SubtractFunctor => Some (x - y)
  | MultiplyFunctor => Some (x * y)
  | DivideFunctor => if y =? 0 then None else Some (Z.quot x y)
  end.

(** The integer value of an element, when every type on the way is an
    integer type.  A view and a cast both reduce into the range of the type
    they name; a Python integer converts when it is in range; the result of
    an operator is reduced into the element type it is stored at, and
    division truncates towards zero. *)
Fixpoint eval (e : Elem) : option Z :=
  match e with
  | Uninit => None
  | Bits z => Some z
  | View ty e' | Cast ty e' =>
      match eval e' with
      | Some z => EltTy.wrap ty z
      | None => None
      end
  | Nearest _ _ _ => None
  | FromPy ty (PyLong z) =>
      match EltTy.wrap ty z with
      | Some z' => if z' =? z then Some z else None
      | None => None
      end
  | FromPy _ (PyFloat _) => None
  | Binary f ty a b =>
      match eval a, eval b with
      | Some x, Some y =>
          match apply_functor f x y with
          | Some r => EltTy.wrap ty r
          | None => None
          end
      | _, _ => None
      end
  end.

(* ------------------------------------------------------------------------- *)
(** ** Device arrays and the host store *)

(** Modelled from the spec: the array collaborator ([shortfin/array]) is not
    part of the sources at hand.  An array is a handle on a storage buffer
    with a dtype and a shape; copies of a handle share the buffer. *)
Module device_array.

Record t : Type := Make {
  storage : nat;
  device : nat;
  shape : list nat;
  dtype : DType;
  device_visible : bool
}.

End device_array.

Definition numel (shape : list nat) : nat := fold_right Nat.mul 1%nat shape.

(** The host side: the buffers, the next free buffer, and the arrays
    allocated so far, most recent first. *)
Record Host : Type := MkHost {
  next_storage : nat;
  cells : list (nat * list Elem);
  allocated : list device_array.t
}.

Fixpoint lookup (k : nat) (m : list (nat * list Elem)) : list Elem :=
  match m with
  | [] => []
  | (k', v) :: m' => if Nat.eqb k k' then v else lookup k m'
  end.

(** A call that reads and writes the host store and may throw.  A thrown
    exception leaves the effects made before it in place. *)
Definition M (A : Type) : Type := Host -> Result A * Host.

Definition ret {A : Type} (a : A) : M A := fun h => (OK a, h).

Definition raise {A : Type} (e : exn) : M A := fun h => (throw e, h).

Definition bind {A B : Type} (c : M A) (k : A -> M B) : M B :=
  fun h =>
    match c h with
    | (inr a, h') => k a h'
    | (inl e, h') => (inl e, h')
    end.

Definition lift {A : Type} (r : Result A) : M A := fun h => (r, h).

Declare Scope host_scope.
Delimit Scope host_scope with host.
Notation "x <- c ;; k" := (bind c (fun x => k))
  (at level 61, c at next level, right associativity) : host_scope.
Notation "c ;;; k" := (bind c (fun _ => k))
  (at level 61, right associativity) : host_scope.
Local Open Scope host_scope.

(** Modelled from the spec: [device_array::for_host(device, shape, dtype,
    device_visible)], the host-side allocation factory. *)
Definition for_host (device : nat) (shape : list nat) (dtype : DType)
    (device_visible : bool) : M device_array.t :=
  fun h =>
    let a := device_array.Make (next_storage h) device shape dtype
                               device_visible in
    (OK a,
     MkHost (S (next_storage h))
            ((next_storage h, repeat Uninit (numel shape)) :: cells h)
            (a :: allocated h)).

(** Modelled from the spec: [map_xtensor<EltTy>()], the typed read view. *)
Definition map_xtensor (EltTy : EltTy.t) (a : device_array.t)
  : M (list Elem) :=
  fun h => (OK (map (View EltTy) (lookup (device_array.storage a) (cells h))), h).

(** Modelled from the spec: assignment through [map_xtensor_w<T>()], the
    typed write view; the elements assigned are already of type [T]. *)
Definition map_xtensor_w (a : device_array.t) (data : list Elem) : M unit :=
  fun h =>
    (OK tt,
     MkHost (next_storage h)
            ((device_array.storage a, data) :: cells h)
            (allocated h)).

(** [fmt::format] of a message with one [{}] hole. *)
Definition format1 (before : string) (arg : string) (after : string) : string :=
  before ++ arg ++ after.

(* ------------------------------------------------------------------------- *)
(** ** Dispatch tables *)

(** The [SF_UNARY_THUNK_CASE] list of [ConvertFunctor::Invoke], on the input
    dtype. *)
Definition ConvertFunctor_dispatch (d : DType) : option EltTy.t :=
  match d with
  | float8_e4m3fnuz => Some EltTy.f8e4m3fnuz_t
  | float8_e4m3fn => Some EltTy.f8e4m3fn_t
  | float16 => Some EltTy.half
  | bfloat16 => Some EltTy.bfloat16_t
  | float32 => Some EltTy.float
  | float64 => Some EltTy.double
  | uint8 => Some EltTy.uint8_t
  | int8 => Some EltTy.int8_t
  | uint16 => Some EltTy.uint16_t
  | int16 => Some EltTy.int16_t
  | uint32 => Some EltTy.uint32_t
  | int32 => Some EltTy.uint32_t
  | uint64 => Some EltTy.uint64_t
  | int64 => Some EltTy.int64_t
  | _ => None
  end.

(** The [SF_STORE_CASE] list of [ConvertFunctor::Invoke], on the output
    dtype. *)
Definition ConvertFunctor_store (d : DType) : option EltTy.t :=
  match d with
  | float16 => Some EltTy.half
  | float8_e4m3fnuz => Some EltTy.f8e4m3fnuz_t
  | float8_e4m3fn => Some EltTy.f8e4m3fn_t
  | bfloat16 => Some EltTy.bfloat16_t
  | float32 => Some EltTy.float
  | float64 => Some EltTy.double
  | uint8 => Some EltTy.uint8_t
  | int8 => Some EltTy.int8_t
  | uint16 => Some EltTy.uint16_t
  | int16 => Some EltTy.int16_t
  | uint32 => Some EltTy.uint32_t
  | int32 => Some EltTy.int32_t
  | uint64 => Some EltTy.uint64_t
  | int64 => Some EltTy.int64_t
  | _ => None
  end.

(** The [SF_UNARY_THUNK_CASE] list shared by the round, ceil, floor and trunc
    functors, on the input dtype. *)
Definition Nearest_dispatch (d : DType) : option EltTy.t :=
  match d with
  | float8_e4m3fnuz => Some EltTy.f8e4m3fnuz_t
  | float8_e4m3fn => Some EltTy.f8e4m3fn_t
  | float16 => Some EltTy.half
  | bfloat16 => Some EltTy.bfloat16_t
  | float32 => Some EltTy.float
  | _ => None
  end.

(** The [SF_STORE_CASE] list shared by the round, ceil, floor and trunc
    functors, on the output dtype. *)
Definition Nearest_store (d : DType) : option EltTy.t :=
  match d with
  | uint8 => Some EltTy.uint8_t
  | int8 => Some EltTy.int8_t
  | uint16 => Some EltTy.uint16_t
  | int16 => Some EltTy.int16_t
  | uint32 => Some EltTy.uint32_t
  | int32 => Some EltTy.int32_t
  | _ => None
  end.

(** The [SF_UNARY_FUNCTION_CASE] list of [ElementwiseOperation], on the
    promoted dtype. *)
Definition ElementwiseOperation_dispatch (d : DType) : option EltTy.t :=
  match d with
  | float8_e4m3fnuz => Some EltTy.f8e4m3fnuz_t
  | float8_e4m3fn => Some EltTy.f8e4m3fn_t
  | float16 => Some EltTy.half
  | bfloat16 => Some EltTy.bfloat16_t
  | float32 => Some EltTy.float
  | float64 => Some EltTy.double
  | uint8 => Some EltTy.uint8_t
  | int8 => Some EltTy.int8_t
  | uint16 => Some EltTy.uint16_t
  | int16 => Some EltTy.int16_t
  | uint32 => Some EltTy.uint32_t
  | int32 => Some EltTy.uint32_t
  | uint64 => Some EltTy.uint64_t
  | int64 => Some EltTy.int64_t
  | _ => None
  end.

(* ------------------------------------------------------------------------- *)
(** ** The conversion functors *)

Definition ConvertFunctor_Invoke (input : device_array.t) (dtype : DType)
    (out : device_array.t) : M unit :=
  let compute (EltTy : EltTy.t) : M unit :=
    input_t <- map_xtensor EltTy input ;;
    match ConvertFunctor_store dtype with
    | Some cpp_type => map_xtensor_w out (map (Cast cpp_type) input_t)
    | None => raise (invalid_argument "Invalid output dtype for convert op")
    end in
  match ConvertFunctor_dispatch (device_array.dtype input) with
  | Some EltTy => compute EltTy
  | None =>
      raise (invalid_argument
               (format1 "Unsupported dtype(" (name dtype)
                        ") for converting nearest integer op"))
  end.

(** The body shared, word for word, by [ConvertRoundFunctor],
    [ConvertCeilFunctor], [ConvertFloorFunctor] and [ConvertTruncFunctor];
    they differ in the xtensor operation [op] only. *)
Definition ConvertNearest_Invoke (op : NearestOp) (input : device_array.t)
    (dtype : DType) (out : device_array.t) : M unit :=
  let compute (EltTy : EltTy.t) : M unit :=
    input_t <- map_xtensor EltTy input ;;
    let rounded := map (Nearest op EltTy) input_t in
    if DType_eqb (device_array.dtype input) dtype then
      map_xtensor_w out rounded
    else
      match Nearest_store dtype with
      | Some cpp_type => map_xtensor_w out (map (Cast cpp_type) rounded)
      | None =>
          raise (invalid_argument
                   "Invalid output dtype for converting nearest integer op")
      end in
  match Nearest_dispatch (device_array.dtype input) with
  | Some EltTy => compute EltTy
  | None =>
      raise (invalid_argument
               (format1 "Unsupported dtype(" (name dtype)
                        ") for converting nearest integer op"))
  end.

Definition ConvertRoundFunctor_Invoke := ConvertNearest_Invoke op_round.
Definition ConvertCeilFunctor_Invoke := ConvertNearest_Invoke op_ceil.
Definition ConvertFloorFunctor_Invoke := ConvertNearest_Invoke op_floor.
Definition ConvertTruncFunctor_Invoke := ConvertNearest_Invoke op_trunc.

(** The type of a functor's [Invoke]. *)
Definition ConvertFunc : Type :=
  device_array.t -> DType -> device_array.t -> M unit.

(** The argument check of [GenericElementwiseConvert]: the decided dtype, or
    the mismatch failure. *)
Definition decide_dtype (input : device_array.t) (dtype : option DType)
    (out : option device_array.t) : Result DType :=
  match dtype with
  | None =>
      OK (match out with
          | Some o => device_array.dtype o
          | None => device_array.dtype input
          end)
  | Some d =>
      match out with
      | Some o =>
          if negb (DType_eqb (device_array.dtype o) d) then
            throw (invalid_argument
                     "if both dtype and out are specified, they must match")
          else OK d
      | None => OK d
      end
  end.

Definition GenericElementwiseConvert (Invoke : ConvertFunc)
    (input : device_array.t) (dtype : option DType)
    (out : option device_array.t) (device_visible : bool)
  : M device_array.t :=
  dtype <- lift (decide_dtype input dtype out) ;;
  out <- match out with
         | Some o => ret o
         | None =>
             for_host (device_array.device input) (device_array.shape input)
                      dtype device_visible
         end ;;
  Invoke input dtype out ;;;
  ret out.

(** The five bound operations. *)
Inductive ConvertOp : Type :=
| convert | round | ceil | floor | trunc.

Definition Invoke_of (op : ConvertOp) : ConvertFunc :=
  match op with
  | convert => ConvertFunctor_Invoke
  | round => ConvertRoundFunctor_Invoke
  | ceil => ConvertCeilFunctor_Invoke
  | floor => ConvertFloorFunctor_Invoke
  | trunc => ConvertTruncFunctor_Invoke
  end.

(** The input dispatch table of each operation. *)
Definition dispatch_of (op : ConvertOp) : DType -> option EltTy.t :=
  match op with
  | convert => ConvertFunctor_dispatch
  | _ => Nearest_dispatch
  end.

Definition nearest_op_of (op : ConvertOp) : option NearestOp :=
  match op with
  | convert => None
  | round => Some op_round
  | ceil => Some op_ceil
  | floor => Some op_floor
  | trunc => Some op_trunc
  end.

(** The output array a call works on and the host after the allocation
    step: the caller's [out] and an untouched host, or a fresh array. *)
Definition output_of (input : device_array.t) (dtype : DType)
    (out : option device_array.t) (device_visible : bool) (h : Host)
  : device_array.t * Host :=
  match out with
  | Some o => (o, h)
  | None =>
      (device_array.Make (next_storage h) (device_array.device input)
                         (device_array.shape input) dtype device_visible,
       MkHost (S (next_storage h))
              ((next_storage h,
                repeat Uninit (numel (device_array.shape input))) :: cells h)
              (device_array.Make (next_storage h) (device_array.device input)
                 (device_array.shape input) dtype device_visible
               :: allocated h))
  end.

(** The host after an assignment through a write view. *)
Definition written (o : device_array.t) (data : list Elem) (h : Host) : Host :=
  MkHost (next_storage h) ((device_array.storage o, data) :: cells h)
         (allocated h).

(** [starts_with p s]: the string [s] begins with [p]. *)
Fixpoint starts_with (p s : string) : bool :=
  match p with
  | EmptyString => true
  | String a p' =>
      match s with
      | EmptyString => false
      | String b s' => Ascii.eqb a b && starts_with p' s'
      end
  end.

(** The failure kinds are told apart by the message of the exception. *)
Definition is_unsupported_dtype (e : exn) : bool :=
  match e with
  | invalid_argument w => starts_with "Unsupported dtype(" w
  | broadcast_error => false
  end.

Definition mismatch_message : string :=
  "if both dtype and out are specified, they must match".

Definition invalid_nearest_output_message : string :=
  "Invalid output dtype for converting nearest integer op".

(** [contains needle hay]: [needle] occurs in [hay]. *)
Fixpoint contains (needle hay : string) : bool :=
  starts_with needle hay
  || match hay with
     | EmptyString => false
     | String _ hay' => contains needle hay'
     end.

(* ------------------------------------------------------------------------- *)
(** ** Elementwise binary operations *)

(** A Python operand: a device array, or anything else (a bare scalar). *)
Inductive py_handle : Type :=
| PyDeviceArray (a : device_array.t)
| PyScalar (o : PyObject).

Definition OptionalArrayCast (handle : py_handle) : option device_array.t :=
  match handle with
  | PyDeviceArray a => Some a
  | PyScalar _ => None
  end.

Definition ConvertPyToEltTy (o : PyObject) (EltTy : EltTy.t) : Elem :=
  FromPy EltTy o.

(** xtensor's broadcasting of two array expressions: shapes are aligned on
    their last axis, an axis of extent 1 is repeated. *)
Fixpoint broadcast_dims (a b : list nat) : option (list nat) :=
  match a, b with
  | [], _ => Some b
  | _, [] => Some a
  | x :: a', y :: b' =>
      match broadcast_dims a' b' with
      | Some r =>
          if Nat.eqb x y then Some (x :: r)
          else if Nat.eqb x 1 then Some (y :: r)
          else if Nat.eqb y 1 then Some (x :: r)
          else None
      | None => None
      end
  end.

Definition broadcast_shape (a b : list nat) : option (list nat) :=
  option_map (@rev nat) (broadcast_dims (rev a) (rev b)).

Fixpoint chunks {A : Type} (n size : nat) (l : list A) : list (list A) :=
  match n with
  | O => []
  | S n' => firstn size l :: chunks n' size (skipn size l)
  end.

Fixpoint expand {A : Type} (src tgt : list nat) (data : list A) : list A :=
  match src, tgt with
  | s :: src', t :: tgt' =>
      let parts := map (expand src' tgt') (chunks s (numel src') data) in
      if Nat.eqb s t then List.concat parts
      else List.concat (repeat (List.concat parts) t)
  | _, _ => data
  end.

Definition pad_shape (rank : nat) (s : list nat) : list nat :=
  (repeat 1%nat (rank - List.length s) ++ s)%list.

Fixpoint zip_with {A B C : Type} (f : A -> B -> C) (l : list A) (r : list B)
  : list C :=
  match l, r with
  | x :: l', y :: r' => f x y :: zip_with f l' r'
  | _, _ => []
  end.

(** The promotion step of [ElementwiseOperation] for one operand: an array
    whose dtype differs from the promoted one is replaced by a converted,
    freshly allocated one. *)
Definition promote_operand (array : option device_array.t) (dtype : DType)
  : M (option device_array.t) :=
  match array with
  | Some a =>
      if negb (DType_eqb (device_array.dtype a) dtype) then
        converted <- GenericElementwiseConvert ConvertFunctor_Invoke a
                       (Some dtype) None false ;;
        ret (Some converted)
      else ret (Some a)
  | None => ret None
  end.

(** In [compute] the source tests [!rhs_array], then [!lhs_array]; an
    operand is a bare scalar exactly when its array is absent, and both
    absent never gets past the promotion, so the last branch below is not
    reached. *)
Definition ElementwiseOperation (f : BinaryFunctor) (lhs rhs : py_handle)
    (out : option device_array.t) (device_visible : bool)
  : M device_array.t :=
  let lhs_array := OptionalArrayCast lhs in
  let rhs_array := OptionalArrayCast rhs in
  dtype <- lift (PromoteArithmeticTypes
                   (option_map device_array.dtype lhs_array)
                   (option_map device_array.dtype rhs_array)) ;;
  lhs_array <- promote_operand lhs_array dtype ;;
  rhs_array <- promote_operand rhs_array dtype ;;
  let compute (EltTy : EltTy.t) : M device_array.t :=
    let handle_result (device : nat) (result_shape : list nat)
                      (result : list Elem) : M device_array.t :=
      out <- match out with
             | Some o => ret o
             | None => for_host device result_shape dtype device_visible
             end ;;
      map_xtensor_w out result ;;;
      ret out in
    match lhs_array, rhs_array, lhs, rhs with
    | Some l, None, _, PyScalar o =>
        lhs_t <- map_xtensor EltTy l ;;
        let rhs_scalar := ConvertPyToEltTy o EltTy in
        handle_result (device_array.device l) (device_array.shape l)
                      (map (fun x => Binary f EltTy x rhs_scalar) lhs_t)
    | None, Some r, PyScalar o, _ =>
        let lhs_scalar := ConvertPyToEltTy o EltTy in
        rhs_t <- map_xtensor EltTy r ;;
        handle_result (device_array.device r) (device_array.shape r)
                      (map (fun y => Binary f EltTy lhs_scalar y) rhs_t)
    | Some l, Some r, _, _ =>
        lhs_t <- map_xtensor EltTy l ;;
        rhs_t <- map_xtensor EltTy r ;;
        match broadcast_shape (device_array.shape l) (device_array.shape r) with
        | Some s =>
            let n := List.length s in
            handle_result (device_array.device l) s
              (zip_with (Binary f EltTy)
                 (expand (pad_shape n (device_array.shape l)) s lhs_t)
                 (expand (pad_shape n (device_array.shape r)) s rhs_t))
        | None => raise broadcast_error
        end
    | _, _, _, _ => raise (invalid_argument no_array_message)
    end in
  match ElementwiseOperation_dispatch dtype with
  | Some EltTy => compute EltTy
  | None =>
      raise (invalid_argument
               (format1 "Unsupported dtype(" (name dtype)
                        ") for in elementwise op"))
  end.

(* ------------------------------------------------------------------------- *)
(** ** Axis and index arguments *)

(** [fmt::format] of an integer argument. *)
Definition fmt_int (z : Z) : string := NilZero.string_of_int (Z.to_int z).

(** Conversion to the 32-bit [int] the bound lambdas declare [axis] and [k]
    with. *)
Definition static_cast_int (z : Z) : Z := (z + 2 ^ 31) mod 2 ^ 32 - 2 ^ 31.

(** The axis check at the head of [argmax], [argpartition], [log_softmax]
    and [softmax]: a negative axis counts from the end. *)
Definition check_axis (input : device_array.t) (axis : Z) : Result Z :=
  let size := Z.of_nat (List.length (device_array.shape input)) in
  let axis := if axis <? 0 then static_cast_int (axis + size) else axis in
  if (axis <? 0) || (axis >=? size) then
    throw (invalid_argument
             ("Axis out of range: Must be [0, " ++ fmt_int size
              ++ ") but got " ++ fmt_int axis))
  else OK axis.

(** The check of [k] in [argpartition], against the extent of the axis. *)
Definition check_k (input : device_array.t) (axis : Z) (k : Z) : Result Z :=
  let extent :=
    Z.of_nat (nth (Z.to_nat axis) (device_array.shape input) 0%nat) in
  let k := if k <? 0 then static_cast_int (k + extent) else k in
  if (k <? 0) || (k >=? extent) then
    throw (invalid_argument
             ("K out of range: Must be [-" ++ fmt_int extent ++ ", "
              ++ fmt_int extent ++ ") but got " ++ fmt_int k))
  else OK k.

(** [if (out && (out->dtype() != DType::int64())) throw ...]. *)
Definition check_out_int64 (out : option device_array.t) : Result unit :=
  match out with
  | Some o =>
      if negb (DType_eqb (device_array.dtype o) int64) then
        throw (invalid_argument "out array must have dtype=int64")
      else OK tt
  | None => OK tt
  end.

(** [if (out && (out->dtype() != input.dtype())) throw ...]. *)
Definition check_out_same (input : device_array.t)
    (out : option device_array.t) : Result unit :=
  match out with
  | Some o =>
      if negb (DType_eqb (device_array.dtype o) (device_array.dtype input))
      then
        throw (invalid_argument
                 ("out array must have dtype="
                  ++ name (device_array.dtype input) ++ " but got "
                  ++ name (device_array.dtype o)))
      else OK tt
  | None => OK tt
  end.

(* ------------------------------------------------------------------------- *)
(** ** The simple operations of [BindArrayHostOps] *)

(** The [SF_UNARY_FUNCTION_CASE] list of [argmax], [argpartition], [exp] and
    [log], on the input dtype. *)
Definition UnaryFloat_dispatch (d : DType) : option EltTy.t :=
  match d with
  | float8_e4m3fnuz => Some EltTy.f8e4m3fnuz_t
  | float8_e4m3fn => Some EltTy.f8e4m3fn_t
  | float16 => Some EltTy.half
  | bfloat16 => Some EltTy.bfloat16_t
  | float32 => Some EltTy.float
  | _ => None
  end.

(** The [SF_UNARY_FUNCTION_CASE] list of [log_softmax] and [softmax]. *)
Definition Softmax_dispatch (d : DType) : option EltTy.t :=
  match d with
  | float16 => Some EltTy.half
  | float32 => Some EltTy.float
  | _ => None
  end.

(** An xtensor expression: its shape and its elements in row-major order. *)
Definition xarray : Type := (list nat * list Elem)%type.

(** The xtensor functions the operations call, and the one array method
    whose code is elsewhere.  They are the library's, not this file's: the
    operations are stated over any implementation of them. *)
Record xtensor : Type := MkXtensor {
  xt_exp : EltTy.t -> Elem -> Elem;
  xt_log : EltTy.t -> Elem -> Elem;
  xt_argmax : EltTy.t -> xarray -> Z -> xarray;
  xt_argpartition : EltTy.t -> xarray -> Z -> Z -> xarray;
  xt_amax : EltTy.t -> xarray -> Z -> xarray;
  xt_sum : EltTy.t -> xarray -> Z -> xarray;
  xt_transpose : xarray -> list nat -> Result xarray;
  expand_dims : device_array.t -> Z -> device_array.t
}.

(** [if (!out) out.emplace(for_host(...))], inside a [compute] body. *)
Definition emplace_out (out : option device_array.t) (device : nat)
    (shape : list nat) (dtype : DType) (device_visible : bool)
  : M device_array.t :=
  match out with
  | Some o => ret o
  | None => for_host device shape dtype device_visible
  end.

Definition unsupported_operator_message (d : DType) (operator : string)
  : string :=
  format1 "Unsupported dtype(" (name d) (") for operator " ++ operator).

Definition PyHostOp_argmax (xt : xtensor) (input : device_array.t) (axis : Z)
    (out : option device_array.t) (keepdims device_visible : bool)
  : M device_array.t :=
  axis <- lift (check_axis input axis) ;;
  lift (check_out_int64 out) ;;;
  let compute (EltTy : EltTy.t) : M device_array.t :=
    input_t <- map_xtensor EltTy input ;;
    let result := xt_argmax xt EltTy (device_array.shape input, input_t) axis in
    out <- emplace_out out (device_array.device input) (fst result) int64
             device_visible ;;
    map_xtensor_w out (map (Cast EltTy.int64_t) (snd result)) ;;;
    ret (if keepdims then expand_dims xt out axis else out) in
  match UnaryFloat_dispatch (device_array.dtype input) with
  | Some EltTy => compute EltTy
  | None =>
      raise (invalid_argument
               (unsupported_operator_message (device_array.dtype input)
                  "argmax"))
  end.

Definition PyHostOp_argpartition (xt : xtensor) (input : device_array.t)
    (k axis : Z) (out : option device_array.t) (device_visible : bool)
  : M device_array.t :=
  axis <- lift (check_axis input axis) ;;
  k <- lift (check_k input axis k) ;;
  lift (check_out_int64 out) ;;;
  let compute (EltTy : EltTy.t) : M device_array.t :=
    input_t <- map_xtensor EltTy input ;;
    let result :=
      xt_argpartition xt EltTy (device_array.shape input, input_t) k axis in
    out <- emplace_out out (device_array.device input) (fst result) int64
             device_visible ;;
    map_xtensor_w out (map (Cast EltTy.int64_t) (snd result)) ;;;
    ret out in
  match UnaryFloat_dispatch (device_array.dtype input) with
  | Some EltTy => compute EltTy
  | None =>
      raise (invalid_argument
               (unsupported_operator_message (device_array.dtype input)
                  "argpartition"))
  end.

(** The body [exp] and [log] share word for word; they differ in the xtensor
    function and in the operator named by the message. *)
Definition elementwise_float_op (operator : string)
    (f : EltTy.t -> Elem -> Elem) (input : device_array.t)
    (out : option device_array.t) (device_visible : bool)
  : M device_array.t :=
  lift (check_out_same input out) ;;;
  let compute (EltTy : EltTy.t) : M device_array.t :=
    input_t <- map_xtensor EltTy input ;;
    let result := (device_array.shape input, map (f EltTy) input_t) in
    out <- emplace_out out (device_array.device input) (fst result)
             (device_array.dtype input) device_visible ;;
    map_xtensor_w out (snd result) ;;;
    ret out in
  match UnaryFloat_dispatch (device_array.dtype input) with
  | Some EltTy => compute EltTy
  | None =>
      raise (invalid_argument
               (unsupported_operator_message (device_array.dtype input)
                  operator))
  end.

Definition PyHostOp_exp (xt : xtensor) := elementwise_float_op "exp" (xt_exp xt).
Definition PyHostOp_log (xt : xtensor) := elementwise_float_op "log" (xt_log xt).

(** [xt::expand_dims(e, axis)]: a unit axis inserted at [axis]. *)
Definition xt_expand_dims (e : xarray) (axis : Z) : xarray :=
  ((firstn (Z.to_nat axis) (fst e) ++ 1%nat :: skipn (Z.to_nat axis) (fst e))%list,
   snd e).

(** A broadcasting operator on two xtensor expressions, evaluated into an
    [xt::xarray<EltTy>]. *)
Definition xt_binary (f : BinaryFunctor) (EltTy : EltTy.t) (a b : xarray)
  : Result xarray :=
  match broadcast_shape (fst a) (fst b) with
  | Some s =>
      let n := List.length s in
      OK (s, zip_with (Binary f EltTy)
               (expand (pad_shape n (fst a)) s (snd a))
               (expand (pad_shape n (fst b)) s (snd b)))
  | None => throw broadcast_error
  end.

Definition PyHostOp_log_softmax (xt : xtensor) (input : device_array.t)
    (axis : Z) (out : option device_array.t) (device_visible : bool)
  : M device_array.t :=
  axis <- lift (check_axis input axis) ;;
  lift (check_out_same input out) ;;;
  let compute (EltTy : EltTy.t) : M device_array.t :=
    input_t <- map_xtensor EltTy input ;;
    let input_x := (device_array.shape input, input_t) in
    let max_vals := xt_amax xt EltTy input_x axis in
    let max_vals_keep_dim := xt_expand_dims max_vals axis in
    input_stable <-
      lift (xt_binary SubtractFunctor EltTy input_x max_vals_keep_dim) ;;
    let sum_exp :=
      xt_sum xt EltTy
        (fst input_stable, map (xt_exp xt EltTy) (snd input_stable)) axis in
    let sum_exp_expanded := xt_expand_dims sum_exp axis in
    let log_sum_exp :=
      (fst sum_exp_expanded, map (xt_log xt EltTy) (snd sum_exp_expanded)) in
    result <- lift (xt_binary SubtractFunctor EltTy input_stable log_sum_exp) ;;
    out <- emplace_out out (device_array.device input) (fst result)
             (device_array.dtype input) device_visible ;;
    map_xtensor_w out (snd result) ;;;
    ret out in
  match Softmax_dispatch (device_array.dtype input) with
  | Some EltTy => compute EltTy
  | None =>
      raise (invalid_argument
               (unsupported_operator_message (device_array.dtype input)
                  "log_softmax"))
  end.

Definition PyHostOp_softmax (xt : xtensor) (input : device_array.t)
    (axis : Z) (out : option device_array.t) (device_visible : bool)
  : M device_array.t :=
  axis <- lift (check_axis input axis) ;;
  lift (check_out_same input out) ;;;
  let compute (EltTy : EltTy.t) : M device_array.t :=
    input_t <- map_xtensor EltTy input ;;
    let input_x := (device_array.shape input, input_t) in
    let max_vals := xt_amax xt EltTy input_x axis in
    let max_vals_keep_dim := xt_expand_dims max_vals axis in
    input_stable <-
      lift (xt_binary SubtractFunctor EltTy input_x max_vals_keep_dim) ;;
    let exp_input :=
      (fst input_stable, map (xt_exp xt EltTy) (snd input_stable)) in
    let sum_exp := xt_sum xt EltTy exp_input axis in
    let sum_exp_expanded := xt_expand_dims sum_exp axis in
    result <- lift (xt_binary DivideFunctor EltTy exp_input sum_exp_expanded) ;;
    out <- emplace_out out (device_array.device input) (fst result)
             (device_array.dtype input) device_visible ;;
    map_xtensor_w out (snd result) ;;;
    ret out in
  match Softmax_dispatch (device_array.dtype input) with
  | Some EltTy => compute EltTy
  | None =>
      raise (invalid_argument
               (unsupported_operator_message (device_array.dtype input)
                  "softmax"))
  end.

(* ------------------------------------------------------------------------- *)
(** ** Data movement *)

(** Modelled from the spec: [DType::is_byte_aligned()] and
    [DType::dense_byte_count()]. *)
Definition is_byte_aligned (d : DType) : bool := bit_count d mod 8 =? 0.
Definition dense_byte_count (d : DType) : Z := (bit_count d + 7) / 8.

(** [SF_MOVEMENT_OP_SWITCH]: the element type a data-movement kernel is
    instantiated at, by the byte width of the dtype. *)
Definition SF_MOVEMENT_OP_SWITCH (dtype : DType) : Result EltTy.t :=
  if negb (is_byte_aligned dtype) then
    throw (invalid_argument
             "data movement ops are only defined for byte aligned dtypes")
  else
    let n := dense_byte_count dtype in
    if n =? 1 then OK EltTy.uint8_t
    else if n =? 2 then OK EltTy.uint16_t
    else if n =? 4 then OK EltTy.uint32_t
    else if n =? 8 then OK EltTy.uint64_t
    else
      throw (invalid_argument
               "data movement ops are only defined for dtypes of size 1, 2, 4, 8").

Definition PyHostOp_transpose (xt : xtensor) (input : device_array.t)
    (permutation : list nat) (out : option device_array.t)
    (device_visible : bool) : M device_array.t :=
  let compute (EltTy : EltTy.t) : M device_array.t :=
    input_t <- map_xtensor EltTy input ;;
    permuted_t <-
      lift (xt_transpose xt (device_array.shape input, input_t) permutation) ;;
    out <- emplace_out out (device_array.device input) (fst permuted_t)
             (device_array.dtype input) device_visible ;;
    map_xtensor_w out (snd permuted_t) ;;;
    ret out in
  EltTy <- lift (SF_MOVEMENT_OP_SWITCH (device_array.dtype input)) ;;
  compute EltTy.

(* ------------------------------------------------------------------------- *)
(** ** Vocabulary of the properties *)

(** The fields of an IEEE-754 binary32 pattern. *)
Definition f32_sign (x : Z) : Z := x / 2 ^ 31.
Definition f32_exponent (x : Z) : Z := (x / 2 ^ 23) mod 2 ^ 8.
Definition f32_mantissa (x : Z) : Z := x mod 2 ^ 23.

Definition f32_is_nan (x : Z) : Prop :=
  f32_exponent x = 255 /\ f32_mantissa x <> 0.
Definition f32_is_inf (x : Z) : Prop :=
  f32_exponent x = 255 /\ f32_mantissa x = 0.

(** The value of a bit pattern in an integer element type. *)
Definition value_in (ty : EltTy.t) (z : Z) : Z :=
  match EltTy.wrap ty z with
  | Some v => v
  | None => 0
  end.

(** The range of an integer element type of signedness [s] and width [w]. *)
Definition in_range (s : bool) (w : Z) (v : Z) : Prop :=
  if s then - 2 ^ (w - 1) <= v < 2 ^ (w - 1) else 0 <= v < 2 ^ w.

(** [h'] comes from [h] by allocations and by writes to buffers that are
    new or selected by [P]: no buffer is freed, and every other buffer that
    existed in [h] reads as before. *)
Definition frame (P : nat -> Prop) (h h' : Host) : Prop :=
  (next_storage h <= next_storage h')%nat /\
  (exists fresh, allocated h' = (fresh ++ allocated h)%list) /\
  forall k, (k < next_storage h)%nat -> ~ P k ->
            lookup k (cells h') = lookup k (cells h).

(** A call keeps the frame [P] when it does so from every host. *)
Definition keeps_frame {A : Type} (P : nat -> Prop) (c : M A) : Prop :=
  forall h, frame P h (snd (c h)).

(** The elements a call left in the array it returned. *)
Definition output_elements (run : Result device_array.t * Host) : list Elem :=
  match fst run with
  | inr a => lookup (device_array.storage a) (cells (snd run))
  | inl _ => []
  end.

(** The buffer of the caller's output array, if there is one. *)
Definition is_out (out : option device_array.t) (k : nat) : Prop :=
  match out with
  | Some o => k = device_array.storage o
  | None => False
  end.

(** An implementation of the library functions to run the operations on
    examples with: elements pass through unchanged, reductions and index
    searches drop the axis, transposition permutes the shape only. *)
Definition drop_axis (e : xarray) (axis : Z) : xarray :=
  let s := (firstn (Z.to_nat axis) (fst e)
            ++ skipn (S (Z.to_nat axis)) (fst e))%list in
  (s, repeat Uninit (numel s)).

Definition example_xtensor : xtensor :=
  MkXtensor (fun _ e => e) (fun _ e => e)
            (fun _ e axis => drop_axis e axis)
            (fun _ e _ _ => e)
            (fun _ e axis => drop_axis e axis)
            (fun _ e axis => drop_axis e axis)
            (fun e perm => OK (map (fun i => nth i (fst e) 0%nat) perm, snd e))
            (fun a axis =>
               device_array.Make (device_array.storage a)
                 (device_array.device a)
                 (fst (xt_expand_dims (device_array.shape a, []) axis))
                 (device_array.dtype a) (device_array.device_visible a)).

(** The integer values a call left in the array it returned. *)
Definition output_values (run : Result device_array.t * Host)
  : list (option Z) :=
  match fst run with
  | inr a => map eval (lookup (device_array.storage a) (cells (snd run)))
  | inl _ => []
  end.

(* ========================================================================= *)
(** * Properties *)

(* ------------------------------------------------------------------------- *)
(** ** Promotion *)

Lemma DType_eqb_eq (a b : DType) : DType_eqb a b = true <-> a = b.
Proof.
  unfold DType_eqb. destruct (DType_eq_dec a b); split; congruence.
Qed.

Lemma DType_eqb_refl (a : DType) : DType_eqb a a = true.
Proof. now apply DType_eqb_eq. Qed.

Lemma DType_eqb_neq (a b : DType) : DType_eqb a b = false <-> a <> b.
Proof.
  unfold DType_eqb. destruct (DType_eq_dec a b); split; congruence.
Qed.

(** The if-chain of [DTypePromotionRank] selects the weight of the class. *)
Lemma rank_is_weight_plus_bits (d : DType) :
  DTypePromotionRank d = classification_weight d + bit_count d.
Proof.
  unfold DTypePromotionRank, classification_weight,
    is_boolean, is_integer, is_float, is_complex.
  destruct (numerical_type d); reflexivity.
Qed.

Lemma promoted_dtype_higher_rhs (lhs rhs : DType) :
  DTypePromotionRank lhs < DTypePromotionRank rhs ->
  promoted_dtype lhs rhs = rhs.
Proof.
  intros H. unfold promoted_dtype.
  destruct (Z.ltb_spec (DTypePromotionRank lhs) (DTypePromotionRank rhs));
    [reflexivity | lia].
Qed.

Lemma promoted_dtype_not_lower_lhs (lhs rhs : DType) :
  DTypePromotionRank rhs <= DTypePromotionRank lhs ->
  promoted_dtype lhs rhs = lhs.
Proof.
  intros H. unfold promoted_dtype.
  destruct (Z.ltb_spec (DTypePromotionRank lhs) (DTypePromotionRank rhs));
    [lia | reflexivity].
Qed.

(** The mismatch test of the source is an exclusive or. *)
Lemma mismatch_is_xor (l r : bool) : (l || r) && negb (l && r) = xorb l r.
Proof. destruct l, r; reflexivity. Qed.

(** What [PromoteArithmeticTypes] returns for two present dtypes, in terms
    of the winning dtype. *)
Lemma promote_present (lhs rhs : DType) :
  PromoteArithmeticTypes (Some lhs) (Some rhs) =
  OK (if is_integer (promoted_dtype lhs rhs)
         && xorb (is_unsigned_integer lhs) (is_unsigned_integer rhs)
      then promote_to_next_signed (promoted_dtype lhs rhs)
      else promoted_dtype lhs rhs).
Proof.
  unfold PromoteArithmeticTypes. cbv zeta. rewrite mismatch_is_xor.
  destruct (is_integer (promoted_dtype lhs rhs)); [|reflexivity].
  destruct (xorb _ _); reflexivity.
Qed.

(** The switch of the escalation, by the width of the winning dtype. *)
Lemma promote_to_next_signed_width (d : DType) :
  is_integer d = true ->
  promote_to_next_signed d = signed_of_width (next_width (bit_count d)).
Proof. destruct d; intros H; try discriminate H; reflexivity. Qed.

(** Two distinct dtypes of equal rank are a signed/unsigned pair of one
    width, or two floats of one width. *)
Lemma equal_rank_cases (a b : DType) :
  DTypePromotionRank a = DTypePromotionRank b ->
  a = b \/
  (is_integer a = true /\ is_integer b = true /\
   xorb (is_unsigned_integer a) (is_unsigned_integer b) = true) \/
  (is_float a = true /\ is_float b = true /\ bit_count a = bit_count b).
Proof.
  destruct a, b; intros H; try discriminate H;
    first [ left; reflexivity
          | right; left; repeat split; reflexivity
          | right; right; repeat split; reflexivity ].
Qed.

(** C2: for two present dtypes, the rank is the class weight (1000 boolean,
    2000 integer, 4000 float, 8000 complex) plus the bit count; the operand
    of strictly higher rank supplies the winning dtype, the left operand
    supplies it on a tie, and the winning dtype is what promote returns
    unless the signedness escalation applies. *)
Theorem C2_rank_and_winner (lhs rhs : DType) :
  DTypePromotionRank lhs = classification_weight lhs + bit_count lhs /\
  (is_boolean lhs = true -> DTypePromotionRank lhs = 1000 + bit_count lhs) /\
  (is_integer lhs = true -> DTypePromotionRank lhs = 2000 + bit_count lhs) /\
  (is_float lhs = true -> DTypePromotionRank lhs = 4000 + bit_count lhs) /\
  (is_complex lhs = true -> DTypePromotionRank lhs = 8000 + bit_count lhs) /\
  (DTypePromotionRank lhs < DTypePromotionRank rhs ->
   promoted_dtype lhs rhs = rhs) /\
  (DTypePromotionRank rhs < DTypePromotionRank lhs ->
   promoted_dtype lhs rhs = lhs) /\
  (DTypePromotionRank lhs = DTypePromotionRank rhs ->
   promoted_dtype lhs rhs = lhs) /\
  (is_integer (promoted_dtype lhs rhs)
     && xorb (is_unsigned_integer lhs) (is_unsigned_integer rhs) = false ->
   PromoteArithmeticTypes (Some lhs) (Some rhs) = OK (promoted_dtype lhs rhs)).
Proof.
  split; [apply rank_is_weight_plus_bits|].
  repeat split.
  - unfold DTypePromotionRank. intros ->. reflexivity.
  - unfold DTypePromotionRank, is_boolean, is_integer.
    destruct (numerical_type lhs); intros H; try discriminate H; reflexivity.
  - unfold DTypePromotionRank, is_boolean, is_integer, is_float.
    destruct (numerical_type lhs); intros H; try discriminate H; reflexivity.
  - unfold DTypePromotionRank, is_boolean, is_integer, is_float, is_complex.
    destruct (numerical_type lhs); intros H; try discriminate H; reflexivity.
  - apply promoted_dtype_higher_rhs.
  - intros H. apply promoted_dtype_not_lower_lhs. lia.
  - intros H. apply promoted_dtype_not_lower_lhs. lia.
  - intros H. rewrite promote_present, H. reflexivity.
Qed.

Lemma C2_rank_and_winner_witness :
  DTypePromotionRank bool8 = 1008 /\
  DTypePromotionRank int32 = 2032 /\
  DTypePromotionRank float16 = 4016 /\
  DTypePromotionRank complex64 = 8064 /\
  promoted_dtype int32 float16 = float16 /\
  promoted_dtype float16 int32 = float16 /\
  promoted_dtype float16 bfloat16 = float16 /\
  PromoteArithmeticTypes (Some int32) (Some float16) = OK float16.
Proof.
  pose proof (C2_rank_and_winner bool8 bool8) as (_ & Hb & _).
  pose proof (C2_rank_and_winner int32 float16)
    as (_ & _ & Hi & _ & _ & Hlt & _ & _ & Hres).
  pose proof (C2_rank_and_winner float16 int32)
    as (_ & _ & _ & Hf & _ & _ & Hgt & _ & _).
  pose proof (C2_rank_and_winner complex64 complex64)
    as (_ & _ & _ & _ & Hc & _).
  pose proof (C2_rank_and_winner float16 bfloat16)
    as (_ & _ & _ & _ & _ & _ & _ & Heq & _).
  exact (conj (Hb eq_refl) (conj (Hi eq_refl) (conj (Hf eq_refl)
          (conj (Hc eq_refl) (conj (Hlt eq_refl) (conj (Hgt eq_refl)
          (conj (Heq eq_refl) (Hres eq_refl)))))))).
Defined.

(** C3: when the winning dtype is an integer type and exactly one of the two
    input dtypes is unsigned, promote returns the signed integer of the next
    larger width (8 -> int16, 16 -> int32, 32 -> int64), saturating at int64
    for a 64-bit winner. *)
Theorem C3_signedness_escalation (lhs rhs : DType) :
  is_integer (promoted_dtype lhs rhs) = true ->
  xorb (is_unsigned_integer lhs) (is_unsigned_integer rhs) = true ->
  PromoteArithmeticTypes (Some lhs) (Some rhs) =
  OK (signed_of_width (next_width (bit_count (promoted_dtype lhs rhs)))).
Proof.
  intros Hint Hmis.
  rewrite promote_present, Hint, Hmis. cbn [andb].
  now rewrite promote_to_next_signed_width.
Qed.

Lemma C3_signedness_escalation_witness :
  PromoteArithmeticTypes (Some int8) (Some uint8) = OK int16 /\
  PromoteArithmeticTypes (Some int32) (Some uint32) = OK int64 /\
  PromoteArithmeticTypes (Some uint64) (Some int64) = OK int64 /\
  PromoteArithmeticTypes (Some uint16) (Some int8) = OK int32.
Proof.
  exact (conj (C3_signedness_escalation int8 uint8 eq_refl eq_refl)
          (conj (C3_signedness_escalation int32 uint32 eq_refl eq_refl)
          (conj (C3_signedness_escalation uint64 int64 eq_refl eq_refl)
                (C3_signedness_escalation uint16 int8 eq_refl eq_refl)))).
Defined.

(** C5: promote with both dtypes absent fails with the invalid-arguments
    exception; with exactly one dtype absent it returns the present
    operand's dtype unchanged, whichever side it is on. *)
Theorem C5_absent_operands (d : DType) :
  PromoteArithmeticTypes None None = throw (invalid_argument no_array_message) /\
  PromoteArithmeticTypes None (Some d) = OK d /\
  PromoteArithmeticTypes (Some d) None = OK d.
Proof. repeat split. Qed.

(** C10 fails as stated: float16 and bfloat16 have the same rank, and the
    tie-break returns whichever of them stands on the left. *)
Lemma C10_promote_not_commutative :
  ~ (forall a b : DType,
       PromoteArithmeticTypes (Some a) (Some b) =
       PromoteArithmeticTypes (Some b) (Some a)).
Proof.
  intros H. specialize (H float16 bfloat16). discriminate H.
Qed.

(** C10, amended: promote(a, b) = promote(b, a) exactly when a and b are not
    two distinct float dtypes of equal rank.  Ties between a signed and an
    unsigned integer of one width are hidden by the escalation; ties between
    two float dtypes of one width return the left operand. *)
Theorem C10_promote_commutes_iff (a b : DType) :
  PromoteArithmeticTypes (Some a) (Some b) =
  PromoteArithmeticTypes (Some b) (Some a)
  <->
  (a = b \/ DTypePromotionRank a <> DTypePromotionRank b \/ is_float a = false).
Proof.
  split.
  - intros H.
    destruct (Z.eq_dec (DTypePromotionRank a) (DTypePromotionRank b))
      as [E | NE]; [|right; left; exact NE].
    destruct (equal_rank_cases a b E) as [-> | [(Ha & _) | (Ha & Hb & _)]].
    + left; reflexivity.
    + right; right. unfold is_integer in Ha. unfold is_float.
      destruct (numerical_type a); try discriminate Ha; reflexivity.
    + left.
      rewrite !promote_present in H.
      rewrite (promoted_dtype_not_lower_lhs a b) in H by lia.
      rewrite (promoted_dtype_not_lower_lhs b a) in H by lia.
      assert (Ia : is_integer a = false).
      { unfold is_float in Ha. unfold is_integer.
        destruct (numerical_type a); try discriminate Ha; reflexivity. }
      assert (Ib : is_integer b = false).
      { unfold is_float in Hb. unfold is_integer.
        destruct (numerical_type b); try discriminate Hb; reflexivity. }
      rewrite Ia, Ib in H. cbn [andb] in H. now inversion H.
  - intros [-> | [NE | NF]]; [reflexivity | |].
    + rewrite !promote_present.
      rewrite (xorb_comm (is_unsigned_integer b)).
      assert (W : promoted_dtype a b = promoted_dtype b a).
      { destruct (Z.lt_ge_cases (DTypePromotionRank a) (DTypePromotionRank b)).
        - rewrite promoted_dtype_higher_rhs by assumption.
          rewrite promoted_dtype_not_lower_lhs by lia. reflexivity.
        - rewrite (promoted_dtype_not_lower_lhs a b) by lia.
          rewrite (promoted_dtype_higher_rhs b a) by lia. reflexivity. }
      rewrite W. reflexivity.
    + destruct a, b; try discriminate NF; reflexivity.
Qed.

(* ------------------------------------------------------------------------- *)
(** ** bfloat16 *)

Lemma of_float_value (f : float32_t) :
  is_uint32 (f32_bits f) ->
  bfloat16_t.value (bfloat16_t.of_float f) = f32_bits f / 2 ^ 16.
Proof.
  unfold is_uint32, bfloat16_t.of_float, bit_cast_uint32, static_cast_uint16.
  intros H. cbn [bfloat16_t.value].
  rewrite Z.shiftr_div_pow2 by lia.
  apply Z.mod_small. split.
  - apply Z.div_pos; lia.
  - apply Z.div_lt_upper_bound; lia.
Qed.

Lemma to_float_bits (b : bfloat16_t.t) :
  is_uint16 (bfloat16_t.value b) ->
  f32_bits (bfloat16_t.to_float b) = bfloat16_t.value b * 2 ^ 16.
Proof.
  unfold is_uint16, bfloat16_t.to_float, bit_cast_float, static_cast_uint32.
  intros H. cbn [f32_bits].
  rewrite (Z.mod_small (bfloat16_t.value b)) by lia.
  rewrite Z.shiftl_mul_pow2 by lia.
  apply Z.mod_small. lia.
Qed.

Lemma low16_zero_multiple (x : Z) :
  0 <= x -> Z.land x (2 ^ 16 - 1) = 0 -> x = x / 2 ^ 16 * 2 ^ 16.
Proof.
  intros Hx H.
  change (2 ^ 16 - 1) with (Z.ones 16) in H.
  rewrite Z.land_ones in H by lia.
  pose proof (Z.div_mod x (2 ^ 16)). lia.
Qed.

(** C9: narrowing a 32-bit float to bfloat16 keeps exactly the upper 16 bits
    of its pattern (the low 16 are dropped, never rounded up); widening puts
    the 16 stored bits above 16 zero bits; narrowing a widened value gives
    the value back, and widening a narrowed float gives the float back when
    its low 16 bits are zero. *)
Theorem C9_bfloat16_truncates_and_round_trips
    (f : float32_t) (b : bfloat16_t.t) :
  is_uint32 (f32_bits f) ->
  is_uint16 (bfloat16_t.value b) ->
  (* narrowing *)
  bfloat16_t.value (bfloat16_t.of_float f) = f32_bits f / 2 ^ 16 /\
  is_uint16 (bfloat16_t.value (bfloat16_t.of_float f)) /\
  (forall i, 0 <= i < 16 ->
     Z.testbit (bfloat16_t.value (bfloat16_t.of_float f)) i =
     Z.testbit (f32_bits f) (i + 16)) /\
  f32_bits (bfloat16_t.to_float (bfloat16_t.of_float f)) <= f32_bits f
    < f32_bits (bfloat16_t.to_float (bfloat16_t.of_float f)) + 2 ^ 16 /\
  (* widening *)
  f32_bits (bfloat16_t.to_float b) = bfloat16_t.value b * 2 ^ 16 /\
  Z.land (f32_bits (bfloat16_t.to_float b)) (2 ^ 16 - 1) = 0 /\
  Z.shiftr (f32_bits (bfloat16_t.to_float b)) 16 = bfloat16_t.value b /\
  (* round trips *)
  bfloat16_t.of_float (bfloat16_t.to_float b) = b /\
  (Z.land (f32_bits f) (2 ^ 16 - 1) = 0 ->
   bfloat16_t.to_float (bfloat16_t.of_float f) = f).
Proof.
  intros Hf Hb.
  pose proof (of_float_value f Hf) as Hv.
  assert (Hr : is_uint16 (bfloat16_t.value (bfloat16_t.of_float f))).
  { rewrite Hv. unfold is_uint32 in Hf. split.
    - apply Z.div_pos; lia.
    - apply Z.div_lt_upper_bound; lia. }
  pose proof (to_float_bits b Hb) as Hw.
  pose proof (to_float_bits _ Hr) as Hwf.
  assert (Hsh : Z.shiftr (f32_bits (bfloat16_t.to_float b)) 16
                = bfloat16_t.value b).
  { rewrite Hw, Z.shiftr_div_pow2, Z.div_mul by lia. reflexivity. }
  repeat apply conj.
  - exact Hv.
  - exact (proj1 Hr).
  - exact (proj2 Hr).
  - intros i Hi. rewrite Hv, <- Z.shiftr_div_pow2 by lia.
    apply Z.shiftr_spec. lia.
  - rewrite Hwf, Hv. unfold is_uint32 in Hf.
    pose proof (Z.div_mod (f32_bits f) (2 ^ 16)).
    pose proof (Z.mod_pos_bound (f32_bits f) (2 ^ 16)). lia.
  - rewrite Hwf, Hv. unfold is_uint32 in Hf.
    pose proof (Z.div_mod (f32_bits f) (2 ^ 16)).
    pose proof (Z.mod_pos_bound (f32_bits f) (2 ^ 16)). lia.
  - exact Hw.
  - rewrite Hw. change (2 ^ 16 - 1) with (Z.ones 16).
    rewrite Z.land_ones by lia. apply Z.mod_mul. lia.
  - exact Hsh.
  - destruct b as [v]. unfold bfloat16_t.of_float, bit_cast_uint32.
    rewrite Hsh. cbn [bfloat16_t.value] in *. unfold static_cast_uint16.
    unfold is_uint16 in Hb. rewrite Z.mod_small by lia. reflexivity.
  - intros Hlow. destruct f as [x]. cbn [f32_bits] in *.
    unfold is_uint32 in Hf.
    transitivity (Float32 (f32_bits (bfloat16_t.to_float
                                      (bfloat16_t.of_float (Float32 x))))).
    + destruct (bfloat16_t.to_float _); reflexivity.
    + f_equal. rewrite Hwf, Hv.
      symmetry. apply low16_zero_multiple; [lia | exact Hlow].
Qed.

Lemma C9_bfloat16_witness :
  bfloat16_t.value (bfloat16_t.of_float (Float32 0x3FC00000)) = 0x3FC0 /\
  bfloat16_t.of_float (bfloat16_t.to_float (bfloat16_t.Make 0xBF80))
    = bfloat16_t.Make 0xBF80 /\
  bfloat16_t.to_float (bfloat16_t.of_float (Float32 0x3FC00000))
    = Float32 0x3FC00000.
Proof.
  assert (Hf : is_uint32 (f32_bits (Float32 0x3FC00000)))
    by (unfold is_uint32; cbn; lia).
  assert (Hb : is_uint16 (bfloat16_t.value (bfloat16_t.Make 0xBF80)))
    by (unfold is_uint16; cbn; lia).
  pose proof (C9_bfloat16_truncates_and_round_trips
                (Float32 0x3FC00000) (bfloat16_t.Make 0xBF80) Hf Hb)
    as (Hv & _ & _ & _ & _ & _ & _ & Hnw & Hwn).
  exact (conj Hv (conj Hnw (Hwn eq_refl))).
Defined.

(* ------------------------------------------------------------------------- *)
(** ** The conversion family *)

(** The argument check fails in one way only. *)
Lemma decide_dtype_cases (input : device_array.t) (dtype : option DType)
    (out : option device_array.t) :
  (exists d o, dtype = Some d /\ out = Some o /\ device_array.dtype o <> d /\
     decide_dtype input dtype out = throw (invalid_argument mismatch_message))
  \/
  (exists d, decide_dtype input dtype out = OK d /\
     d = match dtype, out with
         | Some d', _ => d'
         | None, Some o => device_array.dtype o
         | None, None => device_array.dtype input
         end).
Proof.
  destruct dtype as [d|], out as [o|]; cbn.
  - destruct (DType_eqb (device_array.dtype o) d) eqn:E; cbn.
    + right. eexists; split; reflexivity.
    + left. exists d, o. apply DType_eqb_neq in E. repeat split; assumption.
  - right. eexists; split; reflexivity.
  - right. eexists; split; reflexivity.
  - right. eexists; split; reflexivity.
Qed.

(** A failed argument check ends the call before anything else happens. *)
Lemma GenericElementwiseConvert_check_fails (Invoke : ConvertFunc)
    (input : device_array.t) (dtype : option DType)
    (out : option device_array.t) (vis : bool) (h : Host) (e : exn) :
  decide_dtype input dtype out = throw e ->
  GenericElementwiseConvert Invoke input dtype out vis h = (throw e, h).
Proof.
  intros H. unfold GenericElementwiseConvert, bind, lift. rewrite H. reflexivity.
Qed.

(** After a passed check, the call is the functor run on the output array. *)
Lemma GenericElementwiseConvert_run (Invoke : ConvertFunc)
    (input : device_array.t) (dtype : option DType)
    (out : option device_array.t) (vis : bool) (h : Host) (d : DType) :
  decide_dtype input dtype out = OK d ->
  GenericElementwiseConvert Invoke input dtype out vis h =
  match Invoke input d (fst (output_of input d out vis h))
               (snd (output_of input d out vis h)) with
  | (inr _, h2) => (OK (fst (output_of input d out vis h)), h2)
  | (inl e, h2) => (inl e, h2)
  end.
Proof.
  intros H. unfold GenericElementwiseConvert, bind, lift. rewrite H.
  unfold ret, for_host, OK.
  destruct out as [o|]; cbn [output_of fst snd].
  - destruct (Invoke input d o h) as [[e|[]] h2]; reflexivity.
  - destruct (Invoke input d _ _) as [[e|[]] h2]; reflexivity.
Qed.

Ltac unfold_functors :=
  cbn [dispatch_of Invoke_of] in *;
  unfold ConvertRoundFunctor_Invoke, ConvertCeilFunctor_Invoke,
    ConvertFloorFunctor_Invoke, ConvertTruncFunctor_Invoke,
    ConvertNearest_Invoke, ConvertFunctor_Invoke.

(** A functor called on an input dtype outside its table throws the
    unsupported-dtype exception and leaves the host as it found it. *)
Lemma Invoke_unsupported (op : ConvertOp) (input : device_array.t)
    (d : DType) (o : device_array.t) (h : Host) :
  dispatch_of op (device_array.dtype input) = None ->
  Invoke_of op input d o h =
  (throw (invalid_argument
            (format1 "Unsupported dtype(" (name d)
                     ") for converting nearest integer op")), h).
Proof.
  intros H. destruct op; unfold_functors; rewrite H; reflexivity.
Qed.

(** No functor allocates. *)
Lemma Invoke_keeps_allocated (op : ConvertOp) (input : device_array.t)
    (d : DType) (o : device_array.t) (h : Host) :
  allocated (snd (Invoke_of op input d o h)) = allocated h.
Proof.
  destruct op; unfold_functors;
    unfold bind, map_xtensor, map_xtensor_w, raise, OK;
    repeat match goal with
           | |- context [match ?x with _ => _ end] => destruct x
           | |- context [if ?x then _ else _] => destruct x
           end; reflexivity.
Qed.

Lemma starts_with_append (p s : string) : starts_with p (p ++ s) = true.
Proof.
  induction p as [|a p IH]; cbn; [reflexivity|].
  now rewrite Ascii.eqb_refl.
Qed.

Lemma unsupported_message_is_unsupported (n after : string) :
  is_unsupported_dtype
    (invalid_argument (format1 "Unsupported dtype(" n after)) = true.
Proof. apply starts_with_append. Qed.

(** C4 fails as stated: [round] on a float64 input, with neither [dtype] nor
    [out], has allocated the output array by the time the dispatch fails. *)
Lemma C4_allocates_before_unsupported_failure :
  ~ (forall (op : ConvertOp) (input : device_array.t) (dtype : option DType)
            (out : option device_array.t) (vis : bool) (h : Host),
       dispatch_of op (device_array.dtype input) = None ->
       exists e,
         fst (GenericElementwiseConvert (Invoke_of op) input dtype out vis h)
           = throw e /\
         is_unsupported_dtype e = true /\
         allocated
           (snd (GenericElementwiseConvert (Invoke_of op) input dtype out vis h))
           = allocated h).
Proof.
  intros H.
  destruct (H round (device_array.Make 0 0 [2%nat] float64 false) None None
              false (MkHost 1 [(0%nat, [Bits 0; Bits 0])] []) eq_refl)
    as (e & _ & _ & Halloc).
  cbn in Halloc. discriminate Halloc.
Qed.

(** C4, amended: a conversion-family call whose input dtype is outside the
    family's table always fails and writes no element.  If an explicit dtype
    and an output buffer disagree it fails with the invalid-arguments
    mismatch and the host is untouched; otherwise it fails with the
    unsupported-dtype exception, a caller-supplied output buffer is
    untouched, and when none was supplied the output array (decided dtype,
    input shape) has already been allocated, its storage uninitialised. *)
Theorem C4_unsupported_input_fails_without_writing
    (op : ConvertOp) (input : device_array.t) (dtype : option DType)
    (out : option device_array.t) (vis : bool) (h : Host) :
  dispatch_of op (device_array.dtype input) = None ->
  match decide_dtype input dtype out with
  | inl e =>
      e = invalid_argument mismatch_message /\
      GenericElementwiseConvert (Invoke_of op) input dtype out vis h
        = (throw e, h)
  | inr d =>
      exists e,
        is_unsupported_dtype e = true /\
        GenericElementwiseConvert (Invoke_of op) input dtype out vis h
          = (throw e, snd (output_of input d out vis h)) /\
        match out with
        | Some _ => snd (output_of input d out vis h) = h
        | None =>
            snd (output_of input d out vis h) =
            MkHost (S (next_storage h))
                   ((next_storage h,
                     repeat Uninit (numel (device_array.shape input)))
                      :: cells h)
                   (device_array.Make (next_storage h)
                      (device_array.device input) (device_array.shape input)
                      d vis :: allocated h)
        end
  end.
Proof.
  intros Hdisp.
  destruct (decide_dtype_cases input dtype out)
    as [(d & o & -> & -> & Hne & Hdec) | (d & Hdec & _)]; rewrite Hdec.
  - split; [reflexivity|].
    now apply GenericElementwiseConvert_check_fails.
  - unfold OK.
    eexists. split; [|split].
    + apply unsupported_message_is_unsupported.
    + rewrite (GenericElementwiseConvert_run _ _ _ _ _ _ d Hdec).
      rewrite (Invoke_unsupported op _ d _ _ Hdisp). reflexivity.
    + destruct out; reflexivity.
Qed.

Lemma C4_unsupported_input_witness :
  exists e,
    is_unsupported_dtype e = true /\
    GenericElementwiseConvert ConvertRoundFunctor_Invoke
      (device_array.Make 0 0 [2%nat] float64 false) None None false
      (MkHost 1 [(0%nat, [Bits 0; Bits 0])] [])
    = (throw e,
       MkHost 2 [(1%nat, [Uninit; Uninit]); (0%nat, [Bits 0; Bits 0])]
              [device_array.Make 1 0 [2%nat] float64 false]).
Proof.
  destruct (C4_unsupported_input_fails_without_writing round
              (device_array.Make 0 0 [2%nat] float64 false) None None false
              (MkHost 1 [(0%nat, [Bits 0; Bits 0])] []) eq_refl)
    as (e & He & Hrun & _).
  exists e. exact (conj He Hrun).
Defined.

(** C6: with neither [dtype] nor [out] the decided output dtype is the
    input's; with both given and different dtypes the call fails with the
    invalid-arguments mismatch before anything else; without [out] exactly
    one array is allocated, with the decided dtype and the input's shape, and
    it is the array a successful call returns; with [out] nothing is
    allocated. *)
Theorem C6_output_dtype_and_allocation
    (op : ConvertOp) (input : device_array.t) (dtype : option DType)
    (out : option device_array.t) (vis : bool) (h : Host) :
  (dtype = None -> out = None ->
   decide_dtype input dtype out = OK (device_array.dtype input) /\
   forall a,
     fst (GenericElementwiseConvert (Invoke_of op) input dtype out vis h)
       = OK a ->
     device_array.dtype a = device_array.dtype input) /\
  (forall d o, dtype = Some d -> out = Some o -> device_array.dtype o <> d ->
   GenericElementwiseConvert (Invoke_of op) input dtype out vis h
     = (throw (invalid_argument mismatch_message), h)) /\
  (out = None ->
   exists d,
     decide_dtype input dtype out = OK d /\
     d = match dtype with
         | Some d' => d'
         | None => device_array.dtype input
         end /\
     allocated
       (snd (GenericElementwiseConvert (Invoke_of op) input dtype out vis h))
       = device_array.Make (next_storage h) (device_array.device input)
           (device_array.shape input) d vis :: allocated h /\
     forall a,
       fst (GenericElementwiseConvert (Invoke_of op) input dtype out vis h)
         = OK a ->
       a = device_array.Make (next_storage h) (device_array.device input)
             (device_array.shape input) d vis) /\
  (forall o, out = Some o ->
   allocated
     (snd (GenericElementwiseConvert (Invoke_of op) input dtype out vis h))
     = allocated h).
Proof.
  assert (Hnone : forall dt d, decide_dtype input dt None = OK d ->
            allocated
              (snd (GenericElementwiseConvert (Invoke_of op) input dt None vis h))
              = device_array.Make (next_storage h) (device_array.device input)
                  (device_array.shape input) d vis :: allocated h /\
            forall a,
              fst (GenericElementwiseConvert (Invoke_of op) input dt None vis h)
                = OK a ->
              a = device_array.Make (next_storage h)
                    (device_array.device input) (device_array.shape input)
                    d vis).
  { intros dt d Hdec.
    rewrite (GenericElementwiseConvert_run _ _ _ _ _ _ d Hdec).
    cbn [output_of fst snd].
    match goal with |- context [Invoke_of op input d ?o ?h1] =>
      pose proof (Invoke_keeps_allocated op input d o h1) as Hk;
      destruct (Invoke_of op input d o h1) as [[e|[]] h2] end;
      cbn [fst snd allocated] in *; split; try exact Hk.
    - intros a Ha. discriminate Ha.
    - intros a Ha. unfold OK in Ha. congruence. }
  repeat apply conj.
  - intros -> ->. split; [reflexivity|].
    intros a Ha.
    destruct (Hnone None (device_array.dtype input) eq_refl) as (_ & Hret).
    rewrite (Hret a Ha). reflexivity.
  - intros d o -> -> Hne.
    apply GenericElementwiseConvert_check_fails.
    unfold decide_dtype.
    apply DType_eqb_neq in Hne. rewrite Hne. reflexivity.
  - intros ->.
    exists (match dtype with Some d' => d' | None => device_array.dtype input end).
    assert (Hdec : decide_dtype input dtype None =
                   OK (match dtype with
                       | Some d' => d'
                       | None => device_array.dtype input
                       end)) by (destruct dtype; reflexivity).
    destruct (Hnone dtype _ Hdec) as (Ha & Hr).
    repeat split; assumption.
  - intros o ->.
    destruct (decide_dtype_cases input dtype (Some o))
      as [(d & o' & _ & _ & _ & Hdec) | (d & Hdec & _)].
    + rewrite (GenericElementwiseConvert_check_fails _ _ _ _ _ _ _ Hdec).
      reflexivity.
    + rewrite (GenericElementwiseConvert_run _ _ _ _ _ _ d Hdec).
      cbn [output_of fst snd].
      pose proof (Invoke_keeps_allocated op input d o h) as Hk.
      destruct (Invoke_of op input d o h) as [[e|[]] h2]; exact Hk.
Qed.

Lemma C6_output_dtype_witness :
  (forall a,
     fst (GenericElementwiseConvert ConvertFunctor_Invoke
            (device_array.Make 0 0 [1%nat] int16 false) None None false
            (MkHost 1 [(0%nat, [Bits 7])] [])) = OK a ->
     device_array.dtype a = int16) /\
  GenericElementwiseConvert ConvertFunctor_Invoke
    (device_array.Make 0 0 [1%nat] int16 false) (Some int32)
    (Some (device_array.Make 1 0 [1%nat] int64 false)) false
    (MkHost 2 [(0%nat, [Bits 7]); (1%nat, [Uninit])] [])
  = (throw (invalid_argument mismatch_message),
     MkHost 2 [(0%nat, [Bits 7]); (1%nat, [Uninit])] []).
Proof.
  split.
  - exact (proj2 (proj1 (C6_output_dtype_and_allocation convert
                   (device_array.Make 0 0 [1%nat] int16 false) None None false
                   (MkHost 1 [(0%nat, [Bits 7])] [])) eq_refl eq_refl)).
  - refine (proj1 (proj2 (C6_output_dtype_and_allocation convert
                   (device_array.Make 0 0 [1%nat] int16 false) (Some int32)
                   (Some (device_array.Make 1 0 [1%nat] int64 false)) false
                   (MkHost 2 [(0%nat, [Bits 7]); (1%nat, [Uninit])] [])))
                  int32 (device_array.Make 1 0 [1%nat] int64 false)
                  eq_refl eq_refl _).
    cbn. discriminate.
Defined.

(** The output table of the nearest-integer functors holds exactly the
    integer dtypes of 8 to 32 bits. *)
Lemma Nearest_store_domain (d : DType) :
  Nearest_store d <> None <-> is_integer d = true /\ 8 <= bit_count d <= 32.
Proof.
  destruct d; cbn; split;
    first [ intros _; split; [reflexivity | lia]
          | intros H; exfalso; apply H; reflexivity
          | intros [H _]; discriminate H
          | intros [_ H]; lia
          | intros _; discriminate ].
Qed.

(** The nearest-integer functor on an input dtype of its table. *)
Lemma ConvertNearest_Invoke_supported (nop : NearestOp)
    (input : device_array.t) (d : DType) (o : device_array.t) (h : Host)
    (EltTy : EltTy.t) :
  Nearest_dispatch (device_array.dtype input) = Some EltTy ->
  ConvertNearest_Invoke nop input d o h =
  let rounded :=
    map (Nearest nop EltTy)
        (map (View EltTy) (lookup (device_array.storage input) (cells h))) in
  if DType_eqb (device_array.dtype input) d then
    (OK tt, written o rounded h)
  else
    match Nearest_store d with
    | Some cpp_type => (OK tt, written o (map (Cast cpp_type) rounded) h)
    | None => (throw (invalid_argument invalid_nearest_output_message), h)
    end.
Proof.
  intros H. unfold ConvertNearest_Invoke. rewrite H.
  unfold bind, map_xtensor. cbv zeta.
  destruct (DType_eqb (device_array.dtype input) d); [reflexivity|].
  destruct (Nearest_store d); reflexivity.
Qed.

(** C7: for round, ceil, floor and trunc on a supported (floating-point)
    input.  When the decided output dtype is the input's, each element is
    the rounding of the input element, computed and stored in the input's
    element type.  When it differs, the call succeeds exactly for the integer
    dtypes of 8 to 32 bits, and each element is the cast of the rounding
    computed in the input's element type; for any other dtype, 64-bit
    integers included, the call fails with the invalid-arguments exception
    and writes nothing. *)
Theorem C7_nearest_output_contract
    (nop : NearestOp) (input : device_array.t) (dtype : option DType)
    (out : option device_array.t) (vis : bool) (h : Host)
    (d : DType) (EltTy : EltTy.t) :
  decide_dtype input dtype out = OK d ->
  Nearest_dispatch (device_array.dtype input) = Some EltTy ->
  let o := fst (output_of input d out vis h) in
  let h1 := snd (output_of input d out vis h) in
  let src := lookup (device_array.storage input) (cells h1) in
  let run :=
    GenericElementwiseConvert (ConvertNearest_Invoke nop) input dtype out vis h
  in
  (d = device_array.dtype input ->
   run = (OK o,
          written o (map (fun x => Nearest nop EltTy (View EltTy x)) src) h1))
  /\
  (d <> device_array.dtype input ->
   forall cpp_type, Nearest_store d = Some cpp_type ->
   run = (OK o,
          written o
            (map (fun x => Cast cpp_type (Nearest nop EltTy (View EltTy x))) src)
            h1))
  /\
  (d <> device_array.dtype input -> Nearest_store d = None ->
   run = (throw (invalid_argument invalid_nearest_output_message), h1))
  /\
  (Nearest_store d <> None <-> is_integer d = true /\ 8 <= bit_count d <= 32)
  /\
  ((exists a, fst run = OK a) <->
   d = device_array.dtype input \/
   (is_integer d = true /\ 8 <= bit_count d <= 32)).
Proof.
  intros Hdec Hdisp o h1 src run.
  assert (Hrun : run =
            match ConvertNearest_Invoke nop input d o h1 with
            | (inr _, h2) => (OK o, h2)
            | (inl e, h2) => (inl e, h2)
            end)
    by (apply GenericElementwiseConvert_run; exact Hdec).
  rewrite (ConvertNearest_Invoke_supported nop input d o h1 EltTy Hdisp)
    in Hrun.
  cbv zeta in Hrun. fold src in Hrun. rewrite !map_map in Hrun.
  assert (Hsame : d = device_array.dtype input ->
            run = (OK o, written o (map (fun x => Nearest nop EltTy (View EltTy x)) src) h1)).
  { intros ->. rewrite DType_eqb_refl in Hrun. exact Hrun. }
  assert (Hcast : d <> device_array.dtype input ->
            forall cpp_type, Nearest_store d = Some cpp_type ->
            run = (OK o, written o
                     (map (fun x => Cast cpp_type (Nearest nop EltTy (View EltTy x))) src) h1)).
  { intros Hne cpp Hst.
    assert (E : DType_eqb (device_array.dtype input) d = false)
      by (apply DType_eqb_neq; congruence).
    rewrite E, Hst, map_map in Hrun. exact Hrun. }
  assert (Hfail : d <> device_array.dtype input -> Nearest_store d = None ->
            run = (throw (invalid_argument invalid_nearest_output_message), h1)).
  { intros Hne Hst.
    assert (E : DType_eqb (device_array.dtype input) d = false)
      by (apply DType_eqb_neq; congruence).
    rewrite E, Hst in Hrun. exact Hrun. }
  repeat apply conj; try assumption.
  - apply Nearest_store_domain.
  - apply Nearest_store_domain.
  - intros [a Ha].
    destruct (DType_eq_dec d (device_array.dtype input)) as [E | NE];
      [left; exact E | right].
    apply Nearest_store_domain. intros Hst.
    rewrite (Hfail NE Hst) in Ha. discriminate Ha.
  - intros [E | Hint].
    + exists o. rewrite (Hsame E). reflexivity.
    + destruct (DType_eq_dec d (device_array.dtype input)) as [E | NE].
      * exists o. rewrite (Hsame E). reflexivity.
      * apply Nearest_store_domain in Hint.
        destruct (Nearest_store d) as [cpp|] eqn:Hst; [|congruence].
        exists o. rewrite (Hcast NE cpp eq_refl). reflexivity.
Qed.

Lemma C7_nearest_output_witness :
  GenericElementwiseConvert ConvertFloorFunctor_Invoke
    (device_array.Make 0 0 [2%nat] float32 false) (Some int32) None false
    (MkHost 1 [(0%nat, [Bits 0x3FC00000; Bits 0xBFC00000])] [])
  = (OK (device_array.Make 1 0 [2%nat] int32 false),
     MkHost 2
       [(1%nat,
         [Cast EltTy.int32_t
            (Nearest op_floor EltTy.float (View EltTy.float (Bits 0x3FC00000)));
          Cast EltTy.int32_t
            (Nearest op_floor EltTy.float (View EltTy.float (Bits 0xBFC00000)))]);
        (1%nat, [Uninit; Uninit]);
        (0%nat, [Bits 0x3FC00000; Bits 0xBFC00000])]
       [device_array.Make 1 0 [2%nat] int32 false]) /\
  GenericElementwiseConvert ConvertFloorFunctor_Invoke
    (device_array.Make 0 0 [2%nat] float32 false) (Some int64) None false
    (MkHost 1 [(0%nat, [Bits 0x3FC00000; Bits 0xBFC00000])] [])
  = (throw (invalid_argument invalid_nearest_output_message),
     MkHost 2
       [(1%nat, [Uninit; Uninit]);
        (0%nat, [Bits 0x3FC00000; Bits 0xBFC00000])]
       [device_array.Make 1 0 [2%nat] int64 false]).
Proof.
  split.
  - refine (proj1 (proj2 (C7_nearest_output_contract op_floor
              (device_array.Make 0 0 [2%nat] float32 false) (Some int32) None
              false (MkHost 1 [(0%nat, [Bits 0x3FC00000; Bits 0xBFC00000])] [])
              int32 EltTy.float eq_refl eq_refl)) _ EltTy.int32_t eq_refl).
    discriminate.
  - refine (proj1 (proj2 (proj2 (C7_nearest_output_contract op_floor
              (device_array.Make 0 0 [2%nat] float32 false) (Some int64) None
              false (MkHost 1 [(0%nat, [Bits 0x3FC00000; Bits 0xBFC00000])] [])
              int64 EltTy.float eq_refl eq_refl))) _ eq_refl).
    discriminate.
Defined.

(* ------------------------------------------------------------------------- *)
(** ** Dispatch on int32 and the unsupported-dtype message *)

(** C1: the code dispatches int32 at [uint32_t], in [ConvertFunctor::Invoke]
    and in [ElementwiseOperation] alike, although the store table of the same
    functor pairs int32 with [int32_t] and every other tag is dispatched at
    the type the store table pairs it with.  An int32 array holding -6
    converts to the int64 value 4294967290 (a signed read gives -6), and
    divided by an int32 array holding 2 it gives 2147483645 (signed: -3). *)
Theorem C1_int32_dispatched_as_uint32 :
  let h := MkHost 2 [(0%nat, [Bits 0xFFFFFFFA]); (1%nat, [Bits 2])] [] in
  let minus_six := device_array.Make 0 0 [1%nat] int32 false in
  let two := device_array.Make 1 0 [1%nat] int32 false in
  ConvertFunctor_dispatch int32 = Some EltTy.uint32_t /\
  ElementwiseOperation_dispatch int32 = Some EltTy.uint32_t /\
  ConvertFunctor_store int32 = Some EltTy.int32_t /\
  (forall d,
     d = int32 \/
     (ConvertFunctor_dispatch d = ConvertFunctor_store d /\
      ElementwiseOperation_dispatch d = ConvertFunctor_store d)) /\
  output_values
    (GenericElementwiseConvert ConvertFunctor_Invoke minus_six (Some int64)
       None false h) = [Some 4294967290] /\
  eval (Cast EltTy.int64_t (View EltTy.int32_t (Bits 0xFFFFFFFA))) = Some (-6) /\
  output_values
    (ElementwiseOperation DivideFunctor (PyDeviceArray minus_six)
       (PyDeviceArray two) None false h) = [Some 2147483645] /\
  eval (Binary DivideFunctor EltTy.int32_t
          (View EltTy.int32_t (Bits 0xFFFFFFFA))
          (View EltTy.int32_t (Bits 2))) = Some (-3).
Proof.
  cbv zeta. repeat apply conj; try (vm_compute; reflexivity).
  intros d. destruct d; first [left; reflexivity | right; split; reflexivity].
Qed.

(** C8: the unsupported-dtype message is built from the [dtype] argument of
    the functor, the requested output dtype, not from the input's dtype.
    [round] on a float64 input with [dtype = int32] reports int32 and does
    not mention float64; and [convert] reports its failure under the name of
    the nearest-integer operations. *)
Theorem C8_message_names_output_dtype :
  let h := MkHost 1 [(0%nat, [Bits 0])] [] in
  let f64 := device_array.Make 0 0 [1%nat] float64 false in
  let c64 := device_array.Make 0 0 [1%nat] complex64 false in
  (exists h',
     GenericElementwiseConvert ConvertRoundFunctor_Invoke f64 (Some int32)
       None false h
     = (throw (invalid_argument
                 "Unsupported dtype(int32) for converting nearest integer op"),
        h')) /\
  contains (name float64)
    "Unsupported dtype(int32) for converting nearest integer op" = false /\
  fst (GenericElementwiseConvert ConvertFunctor_Invoke c64 (Some float32)
         None false h)
  = throw (invalid_argument
             "Unsupported dtype(float32) for converting nearest integer op").
Proof.
  cbv zeta. repeat apply conj.
  - eexists. vm_compute. reflexivity.
  - vm_compute. reflexivity.
  - vm_compute. reflexivity.
Qed.

(* ------------------------------------------------------------------------- *)
(** ** Elementwise operations *)

(** Two bare scalars fail in the promotion, before any dispatch. *)
Lemma ElementwiseOperation_two_scalars (f : BinaryFunctor) (a b : PyObject)
    (out : option device_array.t) (vis : bool) (h : Host) :
  ElementwiseOperation f (PyScalar a) (PyScalar b) out vis h
  = (throw (invalid_argument no_array_message), h).
Proof. reflexivity. Qed.

(** The promotion step keeps an array operand an array. *)
Lemma promote_operand_keeps_array (a : device_array.t) (dtype : DType)
    (h : Host) (r : option device_array.t) (h' : Host) :
  promote_operand (Some a) dtype h = (OK r, h') -> r <> None.
Proof.
  unfold promote_operand.
  destruct (negb (DType_eqb (device_array.dtype a) dtype)).
  - unfold bind.
    destruct (GenericElementwiseConvert _ _ _ _ _ h) as [[e|c] h2];
      unfold ret, OK; intros H; inversion H; discriminate.
  - unfold ret, OK. intros H; inversion H; discriminate.
Qed.

(** Dividing an int8 array holding 10 by a uint8 array holding 3 promotes
    both operands to int16 and leaves 3 in a fresh int16 array. *)
Example divide_int8_by_uint8 :
  let h := MkHost 2 [(0%nat, [Bits 10]); (1%nat, [Bits 3])] [] in
  let run :=
    ElementwiseOperation DivideFunctor
      (PyDeviceArray (device_array.Make 0 0 [1%nat] int8 false))
      (PyDeviceArray (device_array.Make 1 0 [1%nat] uint8 false))
      None false h in
  option_map device_array.dtype
    (match fst run with inr a => Some a | inl _ => None end) = Some int16 /\
  output_values run = [Some 3].
Proof. split; vm_compute; reflexivity. Qed.

(* ========================================================================= *)
(** * Further properties *)

(* ------------------------------------------------------------------------- *)
(** ** Promotion *)

(** X1: promotion never narrows: for two present dtypes the call succeeds
    and the rank of the result is at least the rank of either operand. *)
Theorem X1_promote_never_narrows (a b : DType) :
  exists r,
    PromoteArithmeticTypes (Some a) (Some b) = OK r /\
    DTypePromotionRank a <= DTypePromotionRank r /\
    DTypePromotionRank b <= DTypePromotionRank r.
Proof.
  rewrite promote_present. eexists. split; [reflexivity|].
  assert (Hw : DTypePromotionRank a <= DTypePromotionRank (promoted_dtype a b)
               /\ DTypePromotionRank b <= DTypePromotionRank (promoted_dtype a b)).
  { destruct (Z.lt_ge_cases (DTypePromotionRank a) (DTypePromotionRank b)).
    - rewrite promoted_dtype_higher_rhs by assumption. lia.
    - rewrite promoted_dtype_not_lower_lhs by lia. lia. }
  destruct (is_integer (promoted_dtype a b)) eqn:Hi; cbn [andb]; [|exact Hw].
  destruct (xorb _ _); [|exact Hw].
  assert (Hs : DTypePromotionRank (promoted_dtype a b)
               <= DTypePromotionRank
                    (promote_to_next_signed (promoted_dtype a b))).
  { destruct (promoted_dtype a b); try discriminate Hi; vm_compute;
      discriminate. }
  lia.
Qed.

(** X2: class beats width.  When [a] is not an integer type and its class
    weighs more than the class of [b], both orders of promotion return [a],
    however wide [b] is: a float operand wins over every integer or boolean
    one, a complex operand over every other. *)
Theorem X2_heavier_class_wins (a b : DType) :
  is_integer a = false ->
  classification_weight b < classification_weight a ->
  PromoteArithmeticTypes (Some a) (Some b) = OK a /\
  PromoteArithmeticTypes (Some b) (Some a) = OK a.
Proof.
  intros Hi Hw.
  assert (Hr : DTypePromotionRank b < DTypePromotionRank a).
  { rewrite !rank_is_weight_plus_bits.
    destruct a, b; cbn in *; lia. }
  rewrite !promote_present.
  rewrite (promoted_dtype_not_lower_lhs a b) by lia.
  rewrite (promoted_dtype_higher_rhs b a) by lia.
  rewrite Hi. split; reflexivity.
Qed.

Lemma X2_heavier_class_wins_witness :
  PromoteArithmeticTypes (Some float8_e4m3fn) (Some int64) = OK float8_e4m3fn /\
  PromoteArithmeticTypes (Some int64) (Some float8_e4m3fn) = OK float8_e4m3fn.
Proof.
  apply (X2_heavier_class_wins float8_e4m3fn int64); [reflexivity|].
  vm_compute. reflexivity.
Defined.

(** X3: promotion stays inside the dtypes the elementwise kernels and the
    convert kernel implement: if both operand dtypes are in the dispatch
    table of [ElementwiseOperation], so is the promoted dtype, and it is in
    the store table of [ConvertFunctor] as well. *)
Theorem X3_promotion_closed_on_supported (a b : DType) :
  ElementwiseOperation_dispatch a <> None ->
  ElementwiseOperation_dispatch b <> None ->
  exists r,
    PromoteArithmeticTypes (Some a) (Some b) = OK r /\
    ElementwiseOperation_dispatch r <> None /\
    ConvertFunctor_store r <> None.
Proof.
  intros Ha Hb.
  destruct a; try (exfalso; apply Ha; reflexivity);
    destruct b; try (exfalso; apply Hb; reflexivity);
    eexists; (split; [vm_compute; reflexivity|]); split; discriminate.
Qed.

Lemma X3_promotion_closed_witness :
  exists r,
    PromoteArithmeticTypes (Some uint32) (Some int8) = OK r /\
    ElementwiseOperation_dispatch r <> None /\
    ConvertFunctor_store r <> None.
Proof.
  apply (X3_promotion_closed_on_supported uint32 int8); discriminate.
Defined.

(* ------------------------------------------------------------------------- *)
(** ** bfloat16: what narrowing does to the fields of a float *)

Lemma narrowed_bits (f : float32_t) :
  is_uint32 (f32_bits f) ->
  f32_bits (bfloat16_t.to_float (bfloat16_t.of_float f))
  = f32_bits f / 2 ^ 16 * 2 ^ 16.
Proof.
  intros Hf.
  assert (Hr : is_uint16 (bfloat16_t.value (bfloat16_t.of_float f))).
  { rewrite of_float_value by assumption. unfold is_uint32 in Hf. split.
    - apply Z.div_pos; lia.
    - apply Z.div_lt_upper_bound; lia. }
  rewrite to_float_bits by assumption.
  now rewrite of_float_value.
Qed.

(** The fields of a float after narrowing to bfloat16 and widening back. *)
Lemma narrowed_fields (f : float32_t) :
  is_uint32 (f32_bits f) ->
  let y := f32_bits (bfloat16_t.to_float (bfloat16_t.of_float f)) in
  f32_sign y = f32_sign (f32_bits f) /\
  f32_exponent y = f32_exponent (f32_bits f) /\
  f32_mantissa y = f32_mantissa (f32_bits f) - f32_bits f mod 2 ^ 16 /\
  0 <= f32_mantissa y <= f32_mantissa (f32_bits f).
Proof.
  intros Hf y. subst y. rewrite (narrowed_bits f Hf).
  destruct f as [x]. cbn [f32_bits] in *. unfold is_uint32 in Hf.
  unfold f32_sign, f32_exponent, f32_mantissa.
  set (q := x / 2 ^ 16).
  assert (Hsign : q * 2 ^ 16 / 2 ^ 31 = x / 2 ^ 31).
  { change (2 ^ 31) with (2 ^ 15 * 2 ^ 16) at 1.
    rewrite Z.div_mul_cancel_r by lia.
    change (2 ^ 31) with (2 ^ 16 * 2 ^ 15).
    rewrite <- Z.div_div by lia. reflexivity. }
  assert (Hexp : q * 2 ^ 16 / 2 ^ 23 = x / 2 ^ 23).
  { change (2 ^ 23) with (2 ^ 7 * 2 ^ 16) at 1.
    rewrite Z.div_mul_cancel_r by lia.
    change (2 ^ 23) with (2 ^ 16 * 2 ^ 7).
    rewrite <- Z.div_div by lia. reflexivity. }
  assert (Hman : (q * 2 ^ 16) mod 2 ^ 23 = x mod 2 ^ 23 - x mod 2 ^ 16).
  { change (2 ^ 23) with (2 ^ 16 * 2 ^ 7) at 2.
    rewrite (Z.rem_mul_r x (2 ^ 16) (2 ^ 7)) by lia.
    change (2 ^ 23) with (2 ^ 7 * 2 ^ 16).
    rewrite Z.mul_mod_distr_r by lia. fold q. lia. }
  repeat apply conj.
  - exact Hsign.
  - now rewrite Hexp.
  - exact Hman.
  - rewrite Hman.
    change (2 ^ 23) with (2 ^ 16 * 2 ^ 7).
    rewrite (Z.rem_mul_r x (2 ^ 16) (2 ^ 7)) by lia.
    pose proof (Z.mod_pos_bound (x / 2 ^ 16) (2 ^ 7)). lia.
  - rewrite Hman. pose proof (Z.mod_pos_bound x (2 ^ 16)). lia.
Qed.

(** X4: narrowing to bfloat16 and widening back keeps the sign and the
    exponent of a float and clears the low 16 bits of its mantissa: the
    magnitude is rounded towards zero, never away from it. *)
Theorem X4_narrowing_keeps_sign_and_exponent (f : float32_t) :
  is_uint32 (f32_bits f) ->
  let y := f32_bits (bfloat16_t.to_float (bfloat16_t.of_float f)) in
  f32_sign y = f32_sign (f32_bits f) /\
  f32_exponent y = f32_exponent (f32_bits f) /\
  f32_mantissa y = f32_mantissa (f32_bits f) - f32_bits f mod 2 ^ 16 /\
  0 <= f32_mantissa y <= f32_mantissa (f32_bits f).
Proof. exact (narrowed_fields f). Qed.

Lemma X4_narrowing_witness :
  let y := f32_bits (bfloat16_t.to_float
                       (bfloat16_t.of_float (Float32 0xC0490FDB))) in
  f32_sign y = 1 /\ f32_exponent y = 128 /\ f32_mantissa y = 0x490000.
Proof.
  assert (Hf : is_uint32 (f32_bits (Float32 0xC0490FDB)))
    by (unfold is_uint32; cbn; lia).
  destruct (X4_narrowing_keeps_sign_and_exponent (Float32 0xC0490FDB) Hf)
    as (Hs & He & Hm & _).
  exact (conj Hs (conj He Hm)).
Defined.

(** X5: narrowing does not guard the special values.  An infinity stays the
    same infinity; a NaN stays a NaN exactly when its payload reaches into
    the upper 7 mantissa bits; a NaN whose payload lies in the low 16 bits
    only comes out as an infinity. *)
Theorem X5_narrowing_of_nan_and_infinity (f : float32_t) :
  is_uint32 (f32_bits f) ->
  let y := f32_bits (bfloat16_t.to_float (bfloat16_t.of_float f)) in
  (f32_is_inf (f32_bits f) -> y = f32_bits f) /\
  (f32_is_nan (f32_bits f) ->
   (2 ^ 16 <= f32_mantissa (f32_bits f) -> f32_is_nan y) /\
   (f32_mantissa (f32_bits f) < 2 ^ 16 -> f32_is_inf y)).
Proof.
  intros Hf y.
  destruct (narrowed_fields f Hf) as (_ & He & Hm & _).
  fold y in He, Hm.
  assert (Hlow : f32_bits f mod 2 ^ 16 = f32_mantissa (f32_bits f) mod 2 ^ 16).
  { unfold f32_mantissa. change (2 ^ 23) with (2 ^ 16 * 2 ^ 7).
    rewrite Z.rem_mul_r by lia.
    rewrite (Z.mul_comm (2 ^ 16)), Z.mod_add by lia.
    now rewrite Z.mod_mod by lia. }
  split.
  - intros [_ Hz]. subst y. rewrite (narrowed_bits f Hf).
    rewrite Hz in Hlow. change (0 mod 2 ^ 16) with 0 in Hlow.
    pose proof (Z.div_mod (f32_bits f) (2 ^ 16)). lia.
  - intros [Hx Hnz]. unfold f32_is_nan, f32_is_inf. rewrite He, Hm, Hlow.
    split; intros Hp; (split; [exact Hx|]).
    + pose proof (Z.div_mod (f32_mantissa (f32_bits f)) (2 ^ 16)).
      assert (1 <= f32_mantissa (f32_bits f) / 2 ^ 16)
        by (apply Z.div_le_lower_bound; lia).
      lia.
    + rewrite Z.mod_small; [lia|].
      unfold f32_mantissa in *.
      pose proof (Z.mod_pos_bound (f32_bits f) (2 ^ 23)). lia.
Qed.

Lemma X5_nan_becomes_infinity_witness :
  f32_is_inf (f32_bits (bfloat16_t.to_float
                          (bfloat16_t.of_float (Float32 0x7F800001)))).
Proof.
  assert (Hf : is_uint32 (f32_bits (Float32 0x7F800001)))
    by (unfold is_uint32; cbn; lia).
  refine (proj2 (proj2 (X5_narrowing_of_nan_and_infinity
                          (Float32 0x7F800001) Hf) _) _).
  - split; [reflexivity | discriminate].
  - reflexivity.
Defined.

(* ------------------------------------------------------------------------- *)
(** ** Axis and index arguments *)

Lemma static_cast_int_small (z : Z) :
  - 2 ^ 31 <= z < 2 ^ 31 -> static_cast_int z = z.
Proof.
  intros H. unfold static_cast_int. rewrite Z.mod_small; lia.
Qed.

(** A possibly negative index against an extent: what the two checks of the
    source compute. *)
Lemma normalise_index (i n : Z) :
  0 <= n < 2 ^ 31 -> - 2 ^ 31 <= i < 2 ^ 31 ->
  let i' := if i <? 0 then static_cast_int (i + n) else i in
  i' = (if i <? 0 then i + n else i) /\
  ((i' <? 0) || (i' >=? n) = false <-> - n <= i < n) /\
  (- n <= i < n -> i' = i mod n).
Proof.
  intros Hn Hi. cbv zeta.
  destruct (Z.ltb_spec i 0) as [Hneg | Hpos].
  - rewrite static_cast_int_small by lia.
    split; [reflexivity|]. split.
    + rewrite orb_false_iff, Z.ltb_ge, Z.geb_leb, Z.leb_gt. lia.
    + intros H. apply (Z.mod_unique_pos _ _ (-1)); lia.
  - split; [reflexivity|]. split.
    + rewrite orb_false_iff, Z.ltb_ge, Z.geb_leb, Z.leb_gt. lia.
    + intros H. symmetry. apply Z.mod_small. lia.
Qed.

(** X6: the axis check of argmax, argpartition, log_softmax and softmax.  An
    axis is accepted exactly when it lies in [-rank, rank), and is then
    normalised to [axis mod rank]; otherwise the call fails with the
    invalid-arguments exception, whose message reports the axis after the
    shift by the rank.  An array of rank 0 has no valid axis. *)
Theorem X6_check_axis (input : device_array.t) (axis : Z) :
  let rank := Z.of_nat (List.length (device_array.shape input)) in
  rank < 2 ^ 31 ->
  - 2 ^ 31 <= axis < 2 ^ 31 ->
  (- rank <= axis < rank -> check_axis input axis = OK (axis mod rank)) /\
  (~ (- rank <= axis < rank) ->
   check_axis input axis =
   throw (invalid_argument
            ("Axis out of range: Must be [0, " ++ fmt_int rank
             ++ ") but got "
             ++ fmt_int (if axis <? 0 then axis + rank else axis)))) /\
  (rank = 0 -> exists e, check_axis input axis = throw e).
Proof.
  intros rank Hr Ha.
  assert (Hn : 0 <= rank < 2 ^ 31) by (unfold rank; lia).
  destruct (normalise_index axis rank Hn Ha) as (Hshift & Hok & Hmod).
  unfold check_axis. fold rank. cbv zeta in *.
  set (axis' := if axis <? 0 then static_cast_int (axis + rank) else axis) in *.
  assert (Hno : ~ (- rank <= axis < rank) ->
                (axis' <? 0) || (axis' >=? rank) = true).
  { intros Hout. destruct ((axis' <? 0) || (axis' >=? rank)) eqn:E;
      [reflexivity | exfalso; apply Hout, Hok; reflexivity]. }
  repeat apply conj.
  - intros Hin. rewrite (proj2 Hok Hin). now rewrite (Hmod Hin).
  - intros Hout. rewrite (Hno Hout), Hshift. reflexivity.
  - intros H0. rewrite Hno by lia. eexists; reflexivity.
Qed.

Lemma X6_check_axis_witness :
  check_axis (device_array.Make 0 0 [2%nat; 3%nat] float32 false) (-1) = OK 1 /\
  check_axis (device_array.Make 0 0 [2%nat; 3%nat] float32 false) (-5)
  = throw (invalid_argument "Axis out of range: Must be [0, 2) but got -3").
Proof.
  pose proof (X6_check_axis (device_array.Make 0 0 [2%nat; 3%nat] float32 false)
                (-1) eq_refl ltac:(lia))
    as (Hin & _ & _).
  pose proof (X6_check_axis (device_array.Make 0 0 [2%nat; 3%nat] float32 false)
                (-5) eq_refl ltac:(lia))
    as (_ & Hout & _).
  split.
  - apply Hin. cbn. lia.
  - apply Hout. cbn. lia.
Defined.

(** X7: the check of [k] in argpartition, for a valid axis.  [k] is accepted
    exactly when it lies in [-n, n) for the extent [n] of the axis, and is
    then normalised to [k mod n]; an axis of extent 0 admits no [k]. *)
Theorem X7_check_k (input : device_array.t) (axis k : Z) :
  let n := Z.of_nat (nth (Z.to_nat axis) (device_array.shape input) 0%nat) in
  n < 2 ^ 31 ->
  - 2 ^ 31 <= k < 2 ^ 31 ->
  (- n <= k < n -> check_k input axis k = OK (k mod n)) /\
  (~ (- n <= k < n) ->
   check_k input axis k =
   throw (invalid_argument
            ("K out of range: Must be [-" ++ fmt_int n ++ ", " ++ fmt_int n
             ++ ") but got " ++ fmt_int (if k <? 0 then k + n else k)))).
Proof.
  intros n Hr Hk.
  assert (Hn : 0 <= n < 2 ^ 31) by (unfold n; lia).
  destruct (normalise_index k n Hn Hk) as (Hshift & Hok & Hmod).
  unfold check_k. fold n. cbv zeta in *.
  set (k' := if k <? 0 then static_cast_int (k + n) else k) in *.
  split.
  - intros Hin. rewrite (proj2 Hok Hin). now rewrite (Hmod Hin).
  - intros Hout.
    destruct ((k' <? 0) || (k' >=? n)) eqn:E;
      [| exfalso; apply Hout, Hok; reflexivity].
    rewrite Hshift. reflexivity.
Qed.

Lemma X7_check_k_witness :
  check_k (device_array.Make 0 0 [2%nat; 5%nat] float32 false) 1 (-3) = OK 2 /\
  check_k (device_array.Make 0 0 [2%nat; 5%nat] float32 false) 1 5
  = throw (invalid_argument "K out of range: Must be [-5, 5) but got 5").
Proof.
  pose proof (X7_check_k (device_array.Make 0 0 [2%nat; 5%nat] float32 false)
                1 (-3) eq_refl ltac:(lia))
    as (Hin & _).
  pose proof (X7_check_k (device_array.Make 0 0 [2%nat; 5%nat] float32 false)
                1 5 eq_refl ltac:(lia))
    as (_ & Hout).
  split.
  - apply Hin. vm_compute. split; [intros H; discriminate H | reflexivity].
  - apply Hout. vm_compute. intros [_ H]. discriminate H.
Defined.





(* ------------------------------------------------------------------------- *)
(** ** The simple operations *)

Ltac unfold_host_ops :=
  unfold PyHostOp_argmax, PyHostOp_argpartition, PyHostOp_exp, PyHostOp_log,
    elementwise_float_op, PyHostOp_log_softmax, PyHostOp_softmax,
    PyHostOp_transpose, emplace_out, bind, lift, ret, raise, for_host,
    map_xtensor, map_xtensor_w, OK, throw;
  cbv beta.

Ltac split_matches :=
  repeat (cbv beta iota;
          match goal with
          | |- context [match ?x with _ => _ end] => destruct x eqn:?
          | |- context [if ?x then _ else _] => destruct x eqn:?
          end).



(** X9: argmax, argpartition, exp, log, log_softmax, softmax and transpose
    validate before they allocate: a call that fails, for whatever reason,
    leaves the host exactly as it found it. *)
Theorem X9_simple_ops_fail_without_effect
    (xt : xtensor) (input : device_array.t) (axis k : Z)
    (permutation : list nat) (out : option device_array.t)
    (keepdims vis : bool) (h : Host) (e : exn) :
  (fst (PyHostOp_argmax xt input axis out keepdims vis h) = throw e ->
   snd (PyHostOp_argmax xt input axis out keepdims vis h) = h) /\
  (fst (PyHostOp_argpartition xt input k axis out vis h) = throw e ->
   snd (PyHostOp_argpartition xt input k axis out vis h) = h) /\
  (fst (PyHostOp_exp xt input out vis h) = throw e ->
   snd (PyHostOp_exp xt input out vis h) = h) /\
  (fst (PyHostOp_log xt input out vis h) = throw e ->
   snd (PyHostOp_log xt input out vis h) = h) /\
  (fst (PyHostOp_log_softmax xt input axis out vis h) = throw e ->
   snd (PyHostOp_log_softmax xt input axis out vis h) = h) /\
  (fst (PyHostOp_softmax xt input axis out vis h) = throw e ->
   snd (PyHostOp_softmax xt input axis out vis h) = h) /\
  (fst (PyHostOp_transpose xt input permutation out vis h) = throw e ->
   snd (PyHostOp_transpose xt input permutation out vis h) = h).
Proof.
  destruct out as [o|];
    repeat apply conj; unfold_host_ops; split_matches; cbn [fst snd];
    intros H; try discriminate H; reflexivity.
Qed.

Lemma X9_simple_ops_witness :
  snd (PyHostOp_exp example_xtensor
         (device_array.Make 0 0 [1%nat] float64 false) None false
         (MkHost 1 [(0%nat, [Bits 0])] []))
  = MkHost 1 [(0%nat, [Bits 0])] [].
Proof.
  refine (proj1 (proj2 (proj2 (X9_simple_ops_fail_without_effect
            example_xtensor (device_array.Make 0 0 [1%nat] float64 false)
            0 0 [] None false false (MkHost 1 [(0%nat, [Bits 0])] [])
            (invalid_argument "Unsupported dtype(float64) for operator exp"))))
          _).
  reflexivity.
Defined.

Lemma check_out_same_dtype (input o : device_array.t) :
  check_out_same input (Some o) = OK tt ->
  device_array.dtype o = device_array.dtype input.
Proof.
  unfold check_out_same.
  destruct (DType_eqb (device_array.dtype o) (device_array.dtype input)) eqn:E;
    cbn; intros H; [now apply DType_eqb_eq | discriminate H].
Qed.

(** X10: exp and log on a supported input.  The result has the input's dtype
    and, when allocated by the call, the input's shape; element [i] of the
    output is the function applied, at the input's element type, to element
    [i] of the input as it was before the call, so that passing the input
    itself as [out] computes in place. *)
Theorem X10_exp_log_elementwise
    (xt : xtensor) (input : device_array.t) (out : option device_array.t)
    (vis : bool) (h : Host) (EltTy : EltTy.t) :
  UnaryFloat_dispatch (device_array.dtype input) = Some EltTy ->
  check_out_same input out = OK tt ->
  let o := fst (output_of input (device_array.dtype input) out vis h) in
  let h1 := snd (output_of input (device_array.dtype input) out vis h) in
  let src := lookup (device_array.storage input) (cells h) in
  PyHostOp_exp xt input out vis h
    = (OK o, written o (map (fun x => xt_exp xt EltTy (View EltTy x)) src) h1) /\
  PyHostOp_log xt input out vis h
    = (OK o, written o (map (fun x => xt_log xt EltTy (View EltTy x)) src) h1) /\
  device_array.dtype o = device_array.dtype input /\
  (out = None -> device_array.shape o = device_array.shape input) /\
  (out = Some input ->
   lookup (device_array.storage input)
          (cells (snd (PyHostOp_exp xt input out vis h)))
   = map (fun x => xt_exp xt EltTy (View EltTy x)) src).
Proof.
  intros Hd Hc o h1 src.
  assert (Hexp : PyHostOp_exp xt input out vis h
    = (OK o, written o (map (fun x => xt_exp xt EltTy (View EltTy x)) src) h1)).
  { subst o h1 src. unfold PyHostOp_exp, elementwise_float_op.
    unfold bind at 1. unfold lift. rewrite Hc, Hd.
    unfold bind, map_xtensor, emplace_out, map_xtensor_w, ret, for_host, OK,
      written.
    rewrite map_map. destruct out; reflexivity. }
  repeat apply conj.
  - exact Hexp.
  - subst o h1 src. unfold PyHostOp_log, elementwise_float_op.
    unfold bind at 1. unfold lift. rewrite Hc, Hd.
    unfold bind, map_xtensor, emplace_out, map_xtensor_w, ret, for_host, OK,
      written.
    rewrite map_map. destruct out; reflexivity.
  - subst o. destruct out as [o'|]; cbn [output_of fst]; [|reflexivity].
    now apply check_out_same_dtype.
  - intros ->. reflexivity.
  - intros ->. rewrite Hexp. subst o. cbn [output_of fst snd written cells lookup].
    now rewrite Nat.eqb_refl.
Qed.

Lemma X10_exp_in_place_witness :
  PyHostOp_exp example_xtensor
    (device_array.Make 0 0 [2%nat] float32 false)
    (Some (device_array.Make 0 0 [2%nat] float32 false)) false
    (MkHost 1 [(0%nat, [Bits 1; Bits 2])] [])
  = (OK (device_array.Make 0 0 [2%nat] float32 false),
     MkHost 1
       [(0%nat, [View EltTy.float (Bits 1); View EltTy.float (Bits 2)]);
        (0%nat, [Bits 1; Bits 2])] []).
Proof.
  exact (proj1 (X10_exp_log_elementwise example_xtensor
           (device_array.Make 0 0 [2%nat] float32 false)
           (Some (device_array.Make 0 0 [2%nat] float32 false)) false
           (MkHost 1 [(0%nat, [Bits 1; Bits 2])] []) EltTy.float
           eq_refl eq_refl)).
Defined.




(* ------------------------------------------------------------------------- *)
(** ** Data movement *)

(** X12: data movement looks at the byte width only.  For every dtype of 1,
    2, 4 or 8 bytes, whatever its class and signedness, the kernel is
    instantiated at the unsigned integer type of exactly that width, through
    which every stored pattern reads as itself; the one wider dtype,
    complex128, is refused with the invalid-arguments exception, before
    xtensor is called or anything is allocated. *)
Theorem X12_movement_dispatch_by_width
    (xt : xtensor) (input : device_array.t) (permutation : list nat)
    (out : option device_array.t) (vis : bool) (h : Host) :
  match SF_MOVEMENT_OP_SWITCH (device_array.dtype input) with
  | inr T =>
      EltTy.integer_info T = Some (false, bit_count (device_array.dtype input))
      /\ (forall z, 0 <= z < 2 ^ bit_count (device_array.dtype input) ->
                    eval (View T (Bits z)) = Some z)
      /\ (forall e,
            xt_transpose xt
              (device_array.shape input,
               map (View T) (lookup (device_array.storage input) (cells h)))
              permutation = throw e ->
            PyHostOp_transpose xt input permutation out vis h = (throw e, h))
  | inl e =>
      device_array.dtype input = complex128 /\
      e = invalid_argument
            "data movement ops are only defined for dtypes of size 1, 2, 4, 8"
      /\ PyHostOp_transpose xt input permutation out vis h = (throw e, h)
  end.
Proof.
  unfold PyHostOp_transpose, bind, lift, map_xtensor, OK.
  destruct (device_array.dtype input) eqn:Hd; cbn;
    first
      [ repeat split; try reflexivity;
        [ intros z Hz; rewrite Z.mod_small by lia; reflexivity
        | intros e ->; reflexivity ]
      | repeat split; reflexivity ].
Qed.

Lemma X12_movement_witness :
  eval (View EltTy.uint32_t (Bits 0xBF800000)) = Some 0xBF800000.
Proof.
  refine (proj1 (proj2 (X12_movement_dispatch_by_width example_xtensor
            (device_array.Make 0 0 [1%nat] float32 false) [0%nat] None false
            (MkHost 1 [(0%nat, [Bits 0xBF800000])] []))) 0xBF800000 _).
  cbn. lia.
Defined.

(* ------------------------------------------------------------------------- *)
(** ** Integer conversions *)

(** The integer element types have one of four widths. *)
Lemma integer_info_width (T : EltTy.t) (s : bool) (w : Z) :
  EltTy.integer_info T = Some (s, w) -> w = 8 \/ w = 16 \/ w = 32 \/ w = 64.
Proof. destruct T; intros H; inversion H; auto. Qed.

Lemma wrap_is_value_in (T : EltTy.t) (s : bool) (w : Z) (z : Z) :
  EltTy.integer_info T = Some (s, w) ->
  EltTy.wrap T z = Some (value_in T z).
Proof.
  intros H. unfold value_in, EltTy.wrap. rewrite H. destruct s; reflexivity.
Qed.

(** The value in an integer type is congruent to the integer it comes
    from, modulo [2^w]. *)
Lemma value_in_congruent (T : EltTy.t) (s : bool) (w : Z) (z : Z) :
  EltTy.integer_info T = Some (s, w) ->
  value_in T z mod 2 ^ w = z mod 2 ^ w.
Proof.
  intros H. pose proof (integer_info_width T s w H) as Hw.
  unfold value_in, EltTy.wrap. rewrite H.
  assert (0 < 2 ^ w) by (apply Z.pow_pos_nonneg; lia).
  destruct s.
  - rewrite Zminus_mod_idemp_l. f_equal. lia.
  - apply Z.mod_mod. lia.
Qed.

(** It depends on that residue only. *)
Lemma value_in_of_residue (T : EltTy.t) (s : bool) (w : Z) (a b : Z) :
  EltTy.integer_info T = Some (s, w) ->
  a mod 2 ^ w = b mod 2 ^ w -> value_in T a = value_in T b.
Proof.
  intros H E. pose proof (integer_info_width T s w H) as Hw.
  unfold value_in, EltTy.wrap. rewrite H.
  assert (0 < 2 ^ w) by (apply Z.pow_pos_nonneg; lia).
  destruct s.
  - f_equal.
    rewrite <- (Zplus_mod_idemp_l a), <- (Zplus_mod_idemp_l b), E.
    reflexivity.
  - exact E.
Qed.

(** A congruence modulo a wider power of two is one modulo a narrower. *)
Lemma residue_narrower (w w' a b : Z) :
  0 <= w <= w' -> a mod 2 ^ w' = b mod 2 ^ w' -> a mod 2 ^ w = b mod 2 ^ w.
Proof.
  intros Hw E.
  assert (Hd : 2 ^ w' = 2 ^ w * 2 ^ (w' - w))
    by (rewrite <- Z.pow_add_r by lia; f_equal; lia).
  assert (0 < 2 ^ w) by (apply Z.pow_pos_nonneg; lia).
  assert (0 < 2 ^ (w' - w)) by (apply Z.pow_pos_nonneg; lia).
  rewrite Hd in E.
  rewrite (Z.rem_mul_r a) in E by lia.
  rewrite (Z.rem_mul_r b) in E by lia.
  pose proof (Z.mod_pos_bound a (2 ^ w)).
  pose proof (Z.mod_pos_bound b (2 ^ w)).
  assert (Hq : (a / 2 ^ w) mod 2 ^ (w' - w) = (b / 2 ^ w) mod 2 ^ (w' - w)
               \/ (a / 2 ^ w) mod 2 ^ (w' - w) <> (b / 2 ^ w) mod 2 ^ (w' - w))
    by lia.
  nia.
Qed.

Lemma value_in_in_range (T : EltTy.t) (s : bool) (w : Z) (z : Z) :
  EltTy.integer_info T = Some (s, w) -> in_range s w (value_in T z).
Proof.
  intros H. pose proof (integer_info_width T s w H) as Hw.
  unfold value_in, EltTy.wrap, in_range. rewrite H.
  assert (0 < 2 ^ w) by (apply Z.pow_pos_nonneg; lia).
  assert (2 ^ w = 2 * 2 ^ (w - 1)).
  { rewrite <- Z.pow_succ_r by lia. f_equal. lia. }
  destruct s.
  - pose proof (Z.mod_pos_bound (z + 2 ^ (w - 1)) (2 ^ w)). lia.
  - apply Z.mod_pos_bound. lia.
Qed.

Lemma value_in_fixed (T : EltTy.t) (s : bool) (w : Z) (v : Z) :
  EltTy.integer_info T = Some (s, w) -> in_range s w v -> value_in T v = v.
Proof.
  intros H Hr. pose proof (integer_info_width T s w H) as Hw.
  unfold value_in, EltTy.wrap, in_range in *. rewrite H.
  assert (2 ^ w = 2 * 2 ^ (w - 1)).
  { rewrite <- Z.pow_succ_r by lia. f_equal. lia. }
  destruct s.
  - rewrite Z.mod_small by lia. lia.
  - apply Z.mod_small. lia.
Qed.

(** [convert] on dtypes of its two tables. *)
Lemma ConvertFunctor_run (input : device_array.t) (dtype : option DType)
    (out : option device_array.t) (vis : bool) (h : Host)
    (d : DType) (T U : EltTy.t) :
  decide_dtype input dtype out = OK d ->
  ConvertFunctor_dispatch (device_array.dtype input) = Some T ->
  ConvertFunctor_store d = Some U ->
  GenericElementwiseConvert ConvertFunctor_Invoke input dtype out vis h =
  (OK (fst (output_of input d out vis h)),
   written (fst (output_of input d out vis h))
     (map (fun x => Cast U (View T x))
          (lookup (device_array.storage input)
                  (cells (snd (output_of input d out vis h)))))
     (snd (output_of input d out vis h))).
Proof.
  intros Hdec HT HU.
  rewrite (GenericElementwiseConvert_run _ _ _ _ _ _ d Hdec).
  unfold ConvertFunctor_Invoke. rewrite HT, HU.
  unfold bind, map_xtensor, map_xtensor_w, OK, written.
  now rewrite map_map.
Qed.

Lemma dispatch_is_store_but_int32 (d : DType) :
  d <> int32 -> ConvertFunctor_dispatch d = ConvertFunctor_store d.
Proof. destruct d; intros H; try reflexivity. now contradict H. Qed.

Lemma in_range_wider (sA sB : bool) (wA wB v : Z) :
  0 < wA ->
  (sA = sB /\ wA <= wB) \/ (sA = false /\ sB = true /\ wA < wB) ->
  in_range sA wA v -> in_range sB wB v.
Proof.
  intros Hw [[-> Hle] | (-> & -> & Hlt)] Hr; unfold in_range in *.
  - destruct sB.
    + pose proof (Z.pow_le_mono_r 2 (wA - 1) (wB - 1)). lia.
    + pose proof (Z.pow_le_mono_r 2 wA wB). lia.
  - pose proof (Z.pow_le_mono_r 2 wA (wB - 1)). lia.
Qed.

Lemma eval_cast_view (T U : EltTy.t) (sT sU : bool) (wT wU : Z) (z : Z) :
  EltTy.integer_info T = Some (sT, wT) ->
  EltTy.integer_info U = Some (sU, wU) ->
  eval (Cast U (View T (Bits z))) = Some (value_in U (value_in T z)).
Proof.
  intros HT HU. cbn [eval].
  rewrite (wrap_is_value_in T sT wT z HT).
  now rewrite (wrap_is_value_in U sU wU _ HU).
Qed.

Lemma lookup_written_same (o : device_array.t) (data : list Elem) (h : Host) :
  lookup (device_array.storage o) (cells (written o data h)) = data.
Proof. cbn. now rewrite Nat.eqb_refl. Qed.

Lemma lookup_fresh_output (input : device_array.t) (d : DType) (vis : bool)
    (h : Host) (k : nat) :
  (k < next_storage h)%nat ->
  lookup k (cells (snd (output_of input d None vis h))) = lookup k (cells h).
Proof.
  intros Hk. cbn.
  destruct (Nat.eqb_spec k (next_storage h)); [lia | reflexivity].
Qed.

(** X13: convert keeps the value of an integer wherever the output type can
    hold it.  For an integer input dtype other than int32 and an integer
    output dtype whose range contains the input's (the same signedness and
    at least the width, or unsigned into a strictly wider signed type),
    every element of the freshly allocated result has the value the input
    element has in the input's own type. *)
Theorem X13_convert_keeps_representable_values
    (input : device_array.t) (B : DType) (vis : bool) (h : Host)
    (zs : list Z) (TA TB : EltTy.t) (sA sB : bool) (wA wB : Z) :
  device_array.dtype input <> int32 ->
  ConvertFunctor_store (device_array.dtype input) = Some TA ->
  ConvertFunctor_store B = Some TB ->
  EltTy.integer_info TA = Some (sA, wA) ->
  EltTy.integer_info TB = Some (sB, wB) ->
  (sA = sB /\ wA <= wB) \/ (sA = false /\ sB = true /\ wA < wB) ->
  (device_array.storage input < next_storage h)%nat ->
  lookup (device_array.storage input) (cells h) = map Bits zs ->
  output_values
    (GenericElementwiseConvert ConvertFunctor_Invoke input (Some B) None vis h)
  = map (fun z => Some (value_in TA z)) zs.
Proof.
  intros Hne HA HB HiA HiB Hfit Hst Hsrc.
  assert (HD : ConvertFunctor_dispatch (device_array.dtype input) = Some TA)
    by (rewrite dispatch_is_store_but_int32; assumption).
  rewrite (ConvertFunctor_run input (Some B) None vis h B TA TB eq_refl HD HB).
  unfold output_values. cbn [fst snd]. unfold OK.
  rewrite lookup_written_same, lookup_fresh_output, Hsrc by assumption.
  rewrite !map_map. apply map_ext. intros z.
  rewrite (eval_cast_view TA TB sA sB wA wB z HiA HiB). f_equal.
  apply (value_in_fixed TB sB wB _ HiB).
  apply (in_range_wider sA sB wA wB); try assumption.
  - pose proof (integer_info_width TA sA wA HiA). lia.
  - now apply (value_in_in_range TA sA wA).
Qed.

Lemma X13_convert_witness :
  output_values
    (GenericElementwiseConvert ConvertFunctor_Invoke
       (device_array.Make 0 0 [2%nat] int8 false) (Some int64) None false
       (MkHost 1 [(0%nat, [Bits 0xFF; Bits 0x7F])] []))
  = [Some (-1); Some 127].
Proof.
  refine (X13_convert_keeps_representable_values
            (device_array.Make 0 0 [2%nat] int8 false) int64 false
            (MkHost 1 [(0%nat, [Bits 0xFF; Bits 0x7F])] [])
            [0xFF; 0x7F] EltTy.int8_t EltTy.int64_t true true 8 64
            _ eq_refl eq_refl eq_refl eq_refl _ _ eq_refl).
  - discriminate.
  - left. split; [reflexivity | discriminate].
  - cbn. lia.
Defined.

(** X14: an integer conversion round trip.  Converting an integer array to an
    integer dtype at least as wide and converting the result back gives, for
    every element, the value the original element has in its own type:
    nothing is lost on the way, whatever the two signednesses, and also when
    the dtype is int32. *)
Theorem X14_convert_round_trip
    (input : device_array.t) (B : DType) (vis : bool) (h : Host)
    (zs : list Z) (TA TB : EltTy.t) (sA sB : bool) (wA wB : Z) :
  ConvertFunctor_store (device_array.dtype input) = Some TA ->
  ConvertFunctor_store B = Some TB ->
  EltTy.integer_info TA = Some (sA, wA) ->
  EltTy.integer_info TB = Some (sB, wB) ->
  wA <= wB ->
  (device_array.storage input < next_storage h)%nat ->
  lookup (device_array.storage input) (cells h) = map Bits zs ->
  let there_and_back :=
    bind (GenericElementwiseConvert ConvertFunctor_Invoke input (Some B) None
            vis)
         (fun b =>
            GenericElementwiseConvert ConvertFunctor_Invoke b
              (Some (device_array.dtype input)) None vis) in
  output_values (there_and_back h) = map (fun z => Some (value_in TA z)) zs /\
  exists a, fst (there_and_back h) = OK a /\
            device_array.dtype a = device_array.dtype input /\
            device_array.shape a = device_array.shape input.
Proof.
  intros HA HB HiA HiB Hle Hst Hsrc there_and_back.
  pose proof (integer_info_width TA sA wA HiA) as HwA.
  destruct (ConvertFunctor_dispatch (device_array.dtype input)) as [DA|] eqn:HDA;
    [| destruct (device_array.dtype input); discriminate].
  assert (HiDA : exists s, EltTy.integer_info DA = Some (s, wA)).
  { destruct (device_array.dtype input); inversion HA; subst TA;
      inversion HDA; subst DA; inversion HiA; subst; eexists; reflexivity. }
  destruct HiDA as [sDA HiDA].
  destruct (ConvertFunctor_dispatch B) as [DB|] eqn:HDB;
    [| destruct B; discriminate].
  assert (HiDB : exists s, EltTy.integer_info DB = Some (s, wB)).
  { destruct B; inversion HB; subst TB;
      inversion HDB; subst DB; inversion HiB; subst; eexists; reflexivity. }
  destruct HiDB as [sDB HiDB].
  subst there_and_back. unfold bind.
  rewrite (ConvertFunctor_run input (Some B) None vis h B DA TB eq_refl HDA HB).
  unfold OK.
  set (b := fst (output_of input B None vis h)).
  set (h1 := snd (output_of input B None vis h)).
  set (data1 := map (fun x => Cast TB (View DA x))
                    (lookup (device_array.storage input) (cells h1))).
  assert (Hb : device_array.dtype b = B) by reflexivity.
  rewrite (ConvertFunctor_run b (Some (device_array.dtype input)) None vis
             (written b data1 h1) (device_array.dtype input) DB TA eq_refl
             ltac:(rewrite Hb; exact HDB) HA).
  split.
  - unfold output_values. cbn [fst snd]. unfold OK.
    rewrite lookup_written_same.
    assert (Hread : lookup (device_array.storage b)
                      (cells (snd (output_of b (device_array.dtype input) None
                                     vis (written b data1 h1)))) = data1).
    { cbn. destruct (Nat.eqb_spec (next_storage h) (S (next_storage h)));
        [lia|]. now rewrite Nat.eqb_refl. }
    rewrite Hread. subst data1 h1.
    rewrite lookup_fresh_output, Hsrc by assumption.
    rewrite !map_map. apply map_ext. intros z.
    cbn [eval].
    rewrite (wrap_is_value_in DA sDA wA z HiDA).
    rewrite (wrap_is_value_in TB sB wB _ HiB).
    rewrite (wrap_is_value_in DB sDB wB _ HiDB).
    rewrite (wrap_is_value_in TA sA wA _ HiA).
    f_equal. apply (value_in_of_residue TA sA wA _ _ HiA).
    rewrite <- (value_in_congruent DA sDA wA z HiDA).
    apply (residue_narrower wA wB); [lia|].
    rewrite (value_in_congruent DB sDB wB _ HiDB).
    apply (value_in_congruent TB sB wB _ HiB).
  - eexists. split; [reflexivity|]. split; reflexivity.
Qed.

Lemma X14_convert_round_trip_witness :
  output_values
    (bind (GenericElementwiseConvert ConvertFunctor_Invoke
             (device_array.Make 0 0 [2%nat] int32 false) (Some uint64) None
             false)
          (fun b =>
             GenericElementwiseConvert ConvertFunctor_Invoke b (Some int32)
               None false)
          (MkHost 1 [(0%nat, [Bits 0xFFFFFFFA; Bits 5])] []))
  = [Some (-6); Some 5].
Proof.
  refine (proj1 (X14_convert_round_trip
            (device_array.Make 0 0 [2%nat] int32 false) uint64 false
            (MkHost 1 [(0%nat, [Bits 0xFFFFFFFA; Bits 5])] [])
            [0xFFFFFFFA; 5] EltTy.int32_t EltTy.uint64_t true false 32 64
            eq_refl eq_refl eq_refl eq_refl _ _ eq_refl)).
  - discriminate.
  - cbn. lia.
Defined.

(* ------------------------------------------------------------------------- *)
(** ** What the operations leave alone *)

Lemma frame_refl (P : nat -> Prop) (h : Host) : frame P h h.
Proof.
  split; [lia|]. split; [exists []; reflexivity|]. reflexivity.
Qed.

Lemma frame_trans (P : nat -> Prop) (h0 h1 h2 : Host) :
  frame P h0 h1 -> frame P h1 h2 -> frame P h0 h2.
Proof.
  intros (Hn1 & [f1 Ha1] & Hk1) (Hn2 & [f2 Ha2] & Hk2).
  split; [lia|]. split.
  - exists (f2 ++ f1)%list. rewrite Ha2, Ha1. now rewrite app_assoc.
  - intros k Hk HP. rewrite Hk2 by (try lia; assumption). now apply Hk1.
Qed.

Lemma frame_weaken (P Q : nat -> Prop) (h h' : Host) :
  (forall k, P k -> Q k) -> frame P h h' -> frame Q h h'.
Proof.
  intros HPQ (Hn & Ha & Hk). split; [exact Hn|]. split; [exact Ha|].
  intros k Hlt HQ. apply Hk; [exact Hlt|]. intros HP. apply HQ, HPQ, HP.
Qed.

Lemma keeps_frame_weaken {A : Type} (P Q : nat -> Prop) (c : M A) :
  (forall k, P k -> Q k) -> keeps_frame P c -> keeps_frame Q c.
Proof. intros HPQ Hc h. apply (frame_weaken P Q); [exact HPQ | apply Hc]. Qed.

Lemma keeps_frame_bind {A B : Type} (P : nat -> Prop) (c : M A)
    (k : A -> M B) :
  keeps_frame P c -> (forall a, keeps_frame P (k a)) ->
  keeps_frame P (bind c k).
Proof.
  intros Hc Hk h. unfold bind.
  specialize (Hc h). destruct (c h) as [[e|a] h1]; cbn [snd] in *.
  - exact Hc.
  - apply (frame_trans P h h1); [exact Hc | apply Hk].
Qed.

Lemma keeps_frame_lift {A : Type} (P : nat -> Prop) (r : Result A) :
  keeps_frame P (lift r).
Proof. intros h. apply frame_refl. Qed.

Lemma keeps_frame_ret {A : Type} (P : nat -> Prop) (a : A) :
  keeps_frame P (ret a).
Proof. intros h. apply frame_refl. Qed.

Lemma keeps_frame_raise {A : Type} (P : nat -> Prop) (e : exn) :
  keeps_frame P (@raise A e).
Proof. intros h. apply frame_refl. Qed.

Lemma keeps_frame_map_xtensor (P : nat -> Prop) (T : EltTy.t)
    (a : device_array.t) :
  keeps_frame P (map_xtensor T a).
Proof. intros h. apply frame_refl. Qed.

(** Allocating, then writing to the allocated array or to the caller's
    [out]: the step every operation ends with. *)
Lemma keeps_frame_store {A : Type} (out : option device_array.t)
    (device : nat) (shape : list nat) (d : DType) (vis : bool)
    (data : list Elem) (finish : device_array.t -> A) :
  keeps_frame (is_out out)
    (bind (emplace_out out device shape d vis)
          (fun o => bind (map_xtensor_w o data) (fun _ => ret (finish o)))).
Proof.
  intros h. unfold bind, emplace_out, map_xtensor_w, ret, for_host, OK.
  destruct out as [o|]; cbn [snd].
  - split; [cbn; lia|]. split; [exists []; reflexivity|].
    intros k Hk HP. cbn in *.
    destruct (Nat.eqb_spec k (device_array.storage o)); [contradiction|].
    reflexivity.
  - split; [cbn; lia|]. split; [eexists [_]; reflexivity|].
    intros k Hk _. cbn in *.
    destruct (Nat.eqb_spec k (next_storage h)); [lia | reflexivity].
Qed.

Lemma Invoke_host_cases (op : ConvertOp) (input : device_array.t)
    (d : DType) (o : device_array.t) (h : Host) :
  snd (Invoke_of op input d o h) = h \/
  exists data, snd (Invoke_of op input d o h) = written o data h.
Proof.
  destruct op; unfold_functors;
    unfold bind, map_xtensor, map_xtensor_w, raise, OK, written;
    repeat match goal with
           | |- context [match ?x with _ => _ end] => destruct x
           | |- context [if ?x then _ else _] => destruct x
           end; cbn [snd];
    first [left; reflexivity | right; eexists; reflexivity].
Qed.

Lemma GenericElementwiseConvert_keeps_frame (op : ConvertOp)
    (input : device_array.t) (dtype : option DType)
    (out : option device_array.t) (vis : bool) :
  keeps_frame (is_out out)
    (GenericElementwiseConvert (Invoke_of op) input dtype out vis).
Proof.
  intros h.
  destruct (decide_dtype input dtype out) as [e|d] eqn:Hdec.
  - rewrite (GenericElementwiseConvert_check_fails _ _ _ _ _ _ e Hdec).
    apply frame_refl.
  - rewrite (GenericElementwiseConvert_run _ _ _ _ _ _ d Hdec).
    assert (Hout : frame (is_out out) h (snd (output_of input d out vis h))).
    { destruct out as [o|]; cbn [output_of snd]; [apply frame_refl|].
      split; [cbn; lia|]. split; [eexists [_]; reflexivity|].
      intros k Hk _. cbn.
      destruct (Nat.eqb_spec k (next_storage h)); [lia | reflexivity]. }
    assert (Hwr : forall data,
              frame (is_out out) h
                (written (fst (output_of input d out vis h)) data
                         (snd (output_of input d out vis h)))).
    { intros data. destruct out as [o|]; cbn [output_of fst snd].
      - split; [cbn; lia|]. split; [exists []; reflexivity|].
        intros k Hk HP. cbn in *.
        destruct (Nat.eqb_spec k (device_array.storage o)); [contradiction|].
        reflexivity.
      - split; [cbn; lia|]. split; [eexists [_]; reflexivity|].
        intros k Hk _. cbn.
        destruct (Nat.eqb_spec k (next_storage h)); [lia | reflexivity]. }
    destruct (Invoke_host_cases op input d
                (fst (output_of input d out vis h))
                (snd (output_of input d out vis h))) as [E | [data E]];
      destruct (Invoke_of op input d _ _) as [[e|[]] h2]; cbn [snd] in *;
      subst h2; auto.
Qed.

(** X15: the conversion family touches one buffer.  Whether a call of
    convert, round, ceil, floor or trunc succeeds or fails, every buffer that
    existed before it, other than the buffer of the caller's [out], reads as
    before, the input's included; no allocation is undone, and new arrays are
    only added in front of the list of allocated ones. *)
Theorem X15_conversion_frame (op : ConvertOp)
    (input : device_array.t) (dtype : option DType)
    (out : option device_array.t) (vis : bool) (h : Host) :
  let h' := snd (GenericElementwiseConvert (Invoke_of op) input dtype out vis h)
  in
  (next_storage h <= next_storage h')%nat /\
  (exists fresh, allocated h' = (fresh ++ allocated h)%list) /\
  (forall k, (k < next_storage h)%nat -> ~ is_out out k ->
             lookup k (cells h') = lookup k (cells h)) /\
  ((device_array.storage input < next_storage h)%nat ->
   ~ is_out out (device_array.storage input) ->
   lookup (device_array.storage input) (cells h')
   = lookup (device_array.storage input) (cells h)).
Proof.
  intros h'.
  destruct (GenericElementwiseConvert_keeps_frame op input dtype out vis h)
    as (Hn & Ha & Hk).
  repeat apply conj; try assumption.
  intros Hlt Hno. now apply Hk.
Qed.

Ltac frame_step :=
  first
    [ apply keeps_frame_store
    | apply keeps_frame_lift
    | apply keeps_frame_raise
    | apply keeps_frame_map_xtensor
    | apply keeps_frame_ret
    | apply keeps_frame_bind; [| intros ? ]
    | match goal with
      | |- keeps_frame _ (match ?x with _ => _ end) => destruct x
      | |- keeps_frame _ (if ?x then _ else _) => destruct x
      end ].

(** X16: argmax, argpartition, exp, log, log_softmax, softmax and transpose
    touch one buffer.  After a call, every buffer that existed before it,
    other than the buffer of the caller's [out], reads as before; without
    [out] no existing buffer changes at all, the input's included; and the
    list of allocated arrays only grows at its front. *)
Theorem X16_simple_ops_frame
    (xt : xtensor) (input : device_array.t) (axis k : Z)
    (permutation : list nat) (out : option device_array.t)
    (keepdims vis : bool) :
  keeps_frame (is_out out) (PyHostOp_argmax xt input axis out keepdims vis) /\
  keeps_frame (is_out out) (PyHostOp_argpartition xt input k axis out vis) /\
  keeps_frame (is_out out) (PyHostOp_exp xt input out vis) /\
  keeps_frame (is_out out) (PyHostOp_log xt input out vis) /\
  keeps_frame (is_out out) (PyHostOp_log_softmax xt input axis out vis) /\
  keeps_frame (is_out out) (PyHostOp_softmax xt input axis out vis) /\
  keeps_frame (is_out out) (PyHostOp_transpose xt input permutation out vis).
Proof.
  repeat apply conj;
    unfold PyHostOp_argmax, PyHostOp_argpartition, PyHostOp_exp, PyHostOp_log,
      elementwise_float_op, PyHostOp_log_softmax, PyHostOp_softmax,
      PyHostOp_transpose; cbv zeta;
    repeat frame_step.
Qed.

Lemma promote_operand_keeps_frame (P : nat -> Prop)
    (array : option device_array.t) (dtype : DType) :
  keeps_frame P (promote_operand array dtype).
Proof.
  unfold promote_operand. destruct array as [a|]; [|apply keeps_frame_ret].
  destruct (negb _); [|apply keeps_frame_ret].
  apply keeps_frame_bind; [|intros c; apply keeps_frame_ret].
  apply (keeps_frame_weaken (is_out None)); [intros k []|].
  apply (GenericElementwiseConvert_keeps_frame convert).
Qed.

(** X17: an elementwise operation touches one buffer.  The operands are
    never written, not even when they are converted on the way: the
    conversions go to freshly allocated arrays.  After add, subtract,
    multiply or divide, every buffer that existed before the call, other
    than the buffer of the caller's [out], reads as before. *)
Theorem X17_elementwise_frame (f : BinaryFunctor) (lhs rhs : py_handle)
    (out : option device_array.t) (vis : bool) (h : Host) :
  let h' := snd (ElementwiseOperation f lhs rhs out vis h) in
  (next_storage h <= next_storage h')%nat /\
  (exists fresh, allocated h' = (fresh ++ allocated h)%list) /\
  (forall k, (k < next_storage h)%nat -> ~ is_out out k ->
             lookup k (cells h') = lookup k (cells h)).
Proof.
  assert (H : keeps_frame (is_out out) (ElementwiseOperation f lhs rhs out vis)).
  { unfold ElementwiseOperation. cbv zeta.
    apply keeps_frame_bind; [apply keeps_frame_lift | intros dtype].
    apply keeps_frame_bind; [apply promote_operand_keeps_frame | intros l].
    apply keeps_frame_bind; [apply promote_operand_keeps_frame | intros r].
    destruct (ElementwiseOperation_dispatch dtype) as [T|];
      [|apply keeps_frame_raise].
    destruct l as [l|], r as [r|], lhs as [la|lo], rhs as [ra|ro];
      repeat first
        [ apply (keeps_frame_store out _ _ _ _ _ (fun o => o))
        | frame_step ]. }
  exact (H h).
Qed.

(* ------------------------------------------------------------------------- *)
(** ** Elementwise operations on arrays and scalars *)

Lemma promote_same (d : DType) :
  PromoteArithmeticTypes (Some d) (Some d) = OK d.
Proof.
  rewrite promote_present, xorb_nilpotent, andb_false_r.
  now rewrite promoted_dtype_not_lower_lhs by lia.
Qed.

Lemma broadcast_dims_same (s : list nat) : broadcast_dims s s = Some s.
Proof.
  induction s as [|x s IH]; [reflexivity|].
  cbn. now rewrite IH, Nat.eqb_refl.
Qed.

Lemma broadcast_shape_same (s : list nat) : broadcast_shape s s = Some s.
Proof.
  unfold broadcast_shape. rewrite broadcast_dims_same. cbn.
  now rewrite rev_involutive.
Qed.

Lemma pad_shape_same (s : list nat) : pad_shape (List.length s) s = s.
Proof. unfold pad_shape. now rewrite Nat.sub_diag. Qed.

Lemma chunks_concat {A : Type} (n m : nat) (l : list A) :
  List.length l = (n * m)%nat -> List.concat (chunks n m l) = l.
Proof.
  revert l. induction n as [|n IH]; intros l Hl; cbn in *.
  - destruct l; [reflexivity | discriminate Hl].
  - rewrite IH; [apply firstn_skipn|].
    rewrite length_skipn. lia.
Qed.

Lemma chunks_length {A : Type} (n m : nat) (l : list A) :
  List.length l = (n * m)%nat ->
  Forall (fun c => List.length c = m) (chunks n m l).
Proof.
  revert l. induction n as [|n IH]; intros l Hl; cbn in *; constructor.
  - rewrite length_firstn. lia.
  - apply IH. rewrite length_skipn. lia.
Qed.

(** Broadcasting an array to its own shape leaves it as it is. *)
Lemma expand_same {A : Type} (s : list nat) (l : list A) :
  List.length l = numel s -> expand s s l = l.
Proof.
  revert l. induction s as [|n s IH]; intros l Hl; [reflexivity|].
  cbn [expand]. rewrite Nat.eqb_refl.
  cbn [numel fold_right] in Hl. fold (numel s) in Hl.
  rewrite <- (chunks_concat n (numel s) l Hl) at 2.
  f_equal.
  pose proof (chunks_length n (numel s) l Hl) as Hc.
  induction Hc as [|c cs Hlen _ IHc]; [reflexivity|].
  cbn. now rewrite IH, IHc.
Qed.

Lemma promote_operand_same (a : device_array.t) (h : Host) :
  promote_operand (Some a) (device_array.dtype a) h = (OK (Some a), h).
Proof. unfold promote_operand. now rewrite DType_eqb_refl. Qed.

(** Two arrays of one supported dtype and one shape. *)
Lemma ElementwiseOperation_same (f : BinaryFunctor) (l r : device_array.t)
    (vis : bool) (h : Host) (T : EltTy.t) :
  device_array.dtype r = device_array.dtype l ->
  device_array.shape r = device_array.shape l ->
  ElementwiseOperation_dispatch (device_array.dtype l) = Some T ->
  List.length (lookup (device_array.storage l) (cells h))
    = numel (device_array.shape l) ->
  List.length (lookup (device_array.storage r) (cells h))
    = numel (device_array.shape l) ->
  output_elements
    (ElementwiseOperation f (PyDeviceArray l) (PyDeviceArray r) None vis h)
  = zip_with (fun x y => Binary f T (View T x) (View T y))
      (lookup (device_array.storage l) (cells h))
      (lookup (device_array.storage r) (cells h)).
Proof.
  intros Hd Hs HT Hl Hr.
  unfold ElementwiseOperation. cbv zeta.
  cbn [OptionalArrayCast option_map].
  rewrite Hd, promote_same.
  unfold bind at 1. unfold lift, OK.
  unfold bind at 1. rewrite promote_operand_same. unfold OK.
  unfold bind at 1. rewrite <- Hd, promote_operand_same, Hd. unfold OK.
  rewrite HT, Hs, broadcast_shape_same, pad_shape_same.
  unfold bind, map_xtensor, map_xtensor_w, ret, for_host, OK, output_elements.
  cbn [fst snd cells lookup device_array.storage].
  rewrite Nat.eqb_refl.
  rewrite !expand_same by (rewrite length_map; assumption).
  generalize (lookup (device_array.storage l) (cells h)) as xs.
  generalize (lookup (device_array.storage r) (cells h)) as ys.
  intros ys xs. revert ys.
  induction xs as [|x xs IH]; intros [|y ys]; cbn; try reflexivity.
  now rewrite IH.
Qed.

Lemma apply_functor_congruent (f : BinaryFunctor) (m a a' b b' : Z) :
  f <> DivideFunctor -> 0 < m ->
  a mod m = a' mod m -> b mod m = b' mod m ->
  exists v v', apply_functor f a b = Some v /\
               apply_functor f a' b' = Some v' /\
               v mod m = v' mod m.
Proof.
  intros Hf Hm Ha Hb.
  destruct f; try (now contradict Hf); cbn; eexists; eexists;
    (split; [reflexivity|]); (split; [reflexivity|]).
  - now rewrite Zplus_mod, Ha, Hb, <- Zplus_mod.
  - now rewrite Zmult_mod, Ha, Hb, <- Zmult_mod.
  - now rewrite Zminus_mod, Ha, Hb, <- Zminus_mod.
Qed.

(** X18: on int32 arrays the unsigned dispatch does not show in add,
    subtract and multiply.  For two int32 arrays of one shape, reading the
    result as int32 gives, element by element, the two's complement result
    of the operation on the signed values of the operands. *)
Theorem X18_int32_add_sub_mul_are_signed
    (f : BinaryFunctor) (l r : device_array.t) (vis : bool) (h : Host)
    (xs ys : list Z) :
  f <> DivideFunctor ->
  device_array.dtype l = int32 ->
  device_array.dtype r = int32 ->
  device_array.shape r = device_array.shape l ->
  lookup (device_array.storage l) (cells h) = map Bits xs ->
  lookup (device_array.storage r) (cells h) = map Bits ys ->
  List.length xs = numel (device_array.shape l) ->
  List.length ys = numel (device_array.shape l) ->
  map (fun e => option_map (value_in EltTy.int32_t) (eval e))
      (output_elements
         (ElementwiseOperation f (PyDeviceArray l) (PyDeviceArray r) None vis h))
  = zip_with
      (fun x y =>
         option_map (value_in EltTy.int32_t)
           (apply_functor f (value_in EltTy.int32_t x)
                            (value_in EltTy.int32_t y)))
      xs ys.
Proof.
  intros Hf Hl Hr Hs Hxs Hys Hlx Hly.
  rewrite (ElementwiseOperation_same f l r vis h EltTy.uint32_t);
    try (rewrite ?Hl, ?Hr; reflexivity); try assumption;
    try (rewrite ?Hxs, ?Hys, length_map; assumption).
  rewrite Hxs, Hys. clear Hxs Hys Hlx Hly.
  revert ys. induction xs as [|x xs IH]; intros [|y ys]; cbn [map zip_with];
    try reflexivity.
  rewrite IH. f_equal.
  cbn [eval].
  rewrite (wrap_is_value_in EltTy.uint32_t false 32 x eq_refl).
  rewrite (wrap_is_value_in EltTy.uint32_t false 32 y eq_refl).
  destruct (apply_functor_congruent f (2 ^ 32)
              (value_in EltTy.uint32_t x) (value_in EltTy.int32_t x)
              (value_in EltTy.uint32_t y) (value_in EltTy.int32_t y))
    as (v & v' & Hv & Hv' & Hc); try assumption; try lia.
  - rewrite (value_in_congruent EltTy.uint32_t false 32 x eq_refl).
    now rewrite (value_in_congruent EltTy.int32_t true 32 x eq_refl).
  - rewrite (value_in_congruent EltTy.uint32_t false 32 y eq_refl).
    now rewrite (value_in_congruent EltTy.int32_t true 32 y eq_refl).
  - rewrite Hv, Hv'.
    rewrite (wrap_is_value_in EltTy.uint32_t false 32 v eq_refl).
    cbn [option_map]. f_equal.
    apply (value_in_of_residue EltTy.int32_t true 32); [reflexivity|].
    rewrite (value_in_congruent EltTy.uint32_t false 32 v eq_refl).
    exact Hc.
Qed.

Lemma X18_int32_witness :
  map (fun e => option_map (value_in EltTy.int32_t) (eval e))
      (output_elements
         (ElementwiseOperation MultiplyFunctor
            (PyDeviceArray (device_array.Make 0 0 [2%nat] int32 false))
            (PyDeviceArray (device_array.Make 1 0 [2%nat] int32 false))
            None false
            (MkHost 2 [(0%nat, [Bits 0xFFFFFFFA; Bits 3]);
                       (1%nat, [Bits 2; Bits 0xFFFFFFFF])] [])))
  = [Some (-12); Some (-3)].
Proof.
  refine (X18_int32_add_sub_mul_are_signed MultiplyFunctor
            (device_array.Make 0 0 [2%nat] int32 false)
            (device_array.Make 1 0 [2%nat] int32 false) false
            (MkHost 2 [(0%nat, [Bits 0xFFFFFFFA; Bits 3]);
                       (1%nat, [Bits 2; Bits 0xFFFFFFFF])] [])
            [0xFFFFFFFA; 3] [2; 0xFFFFFFFF]
            _ eq_refl eq_refl eq_refl eq_refl eq_refl eq_refl eq_refl).
  discriminate.
Defined.








(* ------------------------------------------------------------------------- *)
(** ** The dispatch tables together *)

(** X21: the seven dtype tables of the file agree with one another.  The
    tables of softmax and log_softmax, of argmax, argpartition, exp and log,
    of the nearest-integer functors, of convert and of the elementwise
    operations form a chain of inclusions, and wherever two tables hold a
    dtype they pair it with the same element type, int32 being the one
    exception.  The unary float operations accept exactly the float dtypes
    of at most 32 bits. *)
Theorem X21_tables_agree (d : DType) (T : EltTy.t) :
  (Softmax_dispatch d = Some T -> UnaryFloat_dispatch d = Some T) /\
  UnaryFloat_dispatch d = Nearest_dispatch d /\
  (UnaryFloat_dispatch d = Some T -> ConvertFunctor_dispatch d = Some T) /\
  ElementwiseOperation_dispatch d = ConvertFunctor_dispatch d /\
  (d <> int32 -> ConvertFunctor_dispatch d = ConvertFunctor_store d) /\
  (Nearest_store d = Some T -> ConvertFunctor_store d = Some T) /\
  (UnaryFloat_dispatch d <> None <-> is_float d = true /\ bit_count d <= 32).
Proof.
  repeat apply conj.
  - destruct d; intros H; try discriminate H; exact H.
  - destruct d; reflexivity.
  - destruct d; intros H; try discriminate H; exact H.
  - destruct d; reflexivity.
  - apply dispatch_is_store_but_int32.
  - destruct d; intros H; try discriminate H; exact H.
  - destruct d; cbn; intros H; try (split; [reflexivity | lia]);
      exfalso; apply H; reflexivity.
  - destruct d; cbn; intros [H1 H2]; try discriminate; lia.
Qed.

Lemma X21_tables_witness :
  UnaryFloat_dispatch float16 = Some EltTy.half /\
  ConvertFunctor_dispatch bfloat16 = Some EltTy.bfloat16_t /\
  ConvertFunctor_store int16 = Some EltTy.int16_t.
Proof.
  split; [|split].
  - exact (proj1 (X21_tables_agree float16 EltTy.half) eq_refl).
  - exact (proj1 (proj2 (proj2 (X21_tables_agree bfloat16 EltTy.bfloat16_t)))
             eq_refl).
  - exact (proj1 (proj2 (proj2 (proj2 (proj2 (proj2
             (X21_tables_agree int16 EltTy.int16_t)))))) eq_refl).
Defined.

(** X22: an output array implies the output dtype.  When [out] is given
    without [dtype], a conversion-family call that succeeds returns [out]
    itself and allocates nothing, and convert on dtypes of its tables writes
    to [out] each input element cast to the element type of [out]'s dtype. *)
Theorem X22_out_implies_dtype (op : ConvertOp) (input o : device_array.t)
    (vis : bool) (h : Host) (T U : EltTy.t) :
  decide_dtype input None (Some o) = OK (device_array.dtype o) /\
  (forall a,
     fst (GenericElementwiseConvert (Invoke_of op) input None (Some o) vis h)
       = OK a -> a = o) /\
  (ConvertFunctor_dispatch (device_array.dtype input) = Some T ->
   ConvertFunctor_store (device_array.dtype o) = Some U ->
   GenericElementwiseConvert ConvertFunctor_Invoke input None (Some o) vis h
   = (OK o,
      written o
        (map (fun x => Cast U (View T x))
             (lookup (device_array.storage input) (cells h))) h)).
Proof.
  repeat apply conj.
  - reflexivity.
  - intros a.
    rewrite (GenericElementwiseConvert_run _ input None (Some o) vis h
               (device_array.dtype o) eq_refl).
    cbn [output_of fst snd].
    destruct (Invoke_of op input (device_array.dtype o) o h) as [[e|[]] h2];
      cbn [fst]; intros H; [discriminate H|]. unfold OK in H. congruence.
  - intros HT HU.
    now rewrite (ConvertFunctor_run input None (Some o) vis h
                   (device_array.dtype o) T U eq_refl HT HU).
Qed.

Lemma X22_out_implies_dtype_witness :
  output_values
    (GenericElementwiseConvert ConvertFunctor_Invoke
       (device_array.Make 0 0 [2%nat] int16 false) None
       (Some (device_array.Make 1 0 [2%nat] uint8 false)) false
       (MkHost 2 [(0%nat, [Bits 0x0102; Bits 0xFFFF]); (1%nat, [Uninit; Uninit])]
               []))
  = [Some 2; Some 255].
Proof.
  rewrite (proj2 (proj2 (X22_out_implies_dtype convert
             (device_array.Make 0 0 [2%nat] int16 false)
             (device_array.Make 1 0 [2%nat] uint8 false) false
             (MkHost 2 [(0%nat, [Bits 0x0102; Bits 0xFFFF]);
                        (1%nat, [Uninit; Uninit])] [])
             EltTy.int16_t EltTy.uint8_t)) eq_refl eq_refl).
  reflexivity.
Defined.

(* ------------------------------------------------------------------------- *)
(** ** softmax and log_softmax *)

Lemma check_axis_result_in_range (input : device_array.t) (axis a : Z) :
  check_axis input axis = OK a ->
  0 <= a < Z.of_nat (List.length (device_array.shape input)).
Proof.
  unfold check_axis. cbv zeta.
  match goal with |- context [if ?c then _ else _] => destruct c eqn:E end;
    intros H; [discriminate H|].
  unfold OK in H. inversion H; subst a.
  apply orb_false_iff in E. destruct E as [E1 E2].
  apply Z.ltb_ge in E1. rewrite Z.geb_leb in E2. apply Z.leb_gt in E2. lia.
Qed.

Lemma split_at_axis (s : list nat) (n : nat) :
  (n < List.length s)%nat ->
  s = (firstn n s ++ nth n s 0%nat :: skipn (S n) s)%list.
Proof.
  revert n. induction s as [|x s IH]; intros n Hn; cbn in Hn; [lia|].
  destruct n as [|n]; [reflexivity|].
  cbn [firstn nth skipn app]. f_equal. apply IH. lia.
Qed.

Lemma broadcast_dims_unit (l1 l2 : list nat) (x : nat) :
  broadcast_dims (l1 ++ x :: l2) (l1 ++ 1%nat :: l2)
  = Some (l1 ++ x :: l2)%list.
Proof.
  induction l1 as [|a l1 IH]; cbn [app broadcast_dims].
  - rewrite broadcast_dims_same.
    destruct (Nat.eqb x 1); reflexivity.
  - now rewrite IH, Nat.eqb_refl.
Qed.

Lemma rev_middle {A : Type} (l1 l2 : list A) (x : A) :
  rev (l1 ++ x :: l2) = (rev l2 ++ x :: rev l1)%list.
Proof.
  rewrite rev_app_distr. cbn [rev]. rewrite <- app_assoc. reflexivity.
Qed.

(** A reduced array, with the reduced axis put back as a unit axis,
    broadcasts against the unreduced one to the unreduced shape. *)
Lemma broadcast_keep_dim (s : list nat) (n : nat) :
  (n < List.length s)%nat ->
  let reduced := (firstn n s ++ skipn (S n) s)%list in
  broadcast_shape s
    (firstn n reduced ++ 1%nat :: skipn n reduced)%list = Some s.
Proof.
  intros Hn reduced.
  assert (Hf : List.length (firstn n s) = n)
    by (rewrite length_firstn; lia).
  assert (E1 : firstn n reduced = firstn n s).
  { unfold reduced. rewrite firstn_app, Hf, Nat.sub_diag. cbn.
    rewrite app_nil_r. rewrite firstn_firstn. f_equal. lia. }
  assert (E2 : skipn n reduced = skipn (S n) s).
  { unfold reduced. rewrite skipn_app, Hf, Nat.sub_diag. cbn.
    rewrite (skipn_all2 (firstn n s)) by lia. reflexivity. }
  rewrite E1, E2. clear E1 E2 reduced Hf.
  pose proof (split_at_axis s n Hn) as Hs.
  remember (firstn n s) as l1. remember (skipn (S n) s) as l2.
  remember (nth n s 0%nat) as x. clear Heql1 Heql2 Heqx. subst s.
  unfold broadcast_shape.
  rewrite !rev_middle, broadcast_dims_unit. cbn [option_map].
  now rewrite rev_middle, !rev_involutive.
Qed.

(** X23: softmax and log_softmax keep dtype and shape.  Provided xtensor's
    reductions [amax] and [sum] drop the reduced axis from the shape, a call
    on a float16 or float32 array with a valid axis and no [out] succeeds,
    and the array it returns has the input's dtype and the input's shape. *)
Theorem X23_softmax_keeps_dtype_and_shape
    (xt : xtensor) (input : device_array.t) (axis a : Z) (vis : bool)
    (h : Host) (T : EltTy.t) :
  (forall T e a,
     fst (xt_amax xt T e a)
     = (firstn (Z.to_nat a) (fst e) ++ skipn (S (Z.to_nat a)) (fst e))%list) ->
  (forall T e a,
     fst (xt_sum xt T e a)
     = (firstn (Z.to_nat a) (fst e) ++ skipn (S (Z.to_nat a)) (fst e))%list) ->
  Softmax_dispatch (device_array.dtype input) = Some T ->
  check_axis input axis = OK a ->
  (exists r h',
     PyHostOp_softmax xt input axis None vis h = (OK r, h') /\
     device_array.dtype r = device_array.dtype input /\
     device_array.shape r = device_array.shape input) /\
  (exists r h',
     PyHostOp_log_softmax xt input axis None vis h = (OK r, h') /\
     device_array.dtype r = device_array.dtype input /\
     device_array.shape r = device_array.shape input).
Proof.
  intros Hamax Hsum HT Hax.
  pose proof (check_axis_result_in_range input axis a Hax) as Hr.
  assert (Hn : (Z.to_nat a < List.length (device_array.shape input))%nat)
    by lia.
  pose proof (broadcast_keep_dim (device_array.shape input) (Z.to_nat a) Hn)
    as Hb. cbv zeta in Hb.
  assert (Hbin : forall f (x y : xarray),
            fst x = device_array.shape input ->
            fst y = (firstn (Z.to_nat a)
                       (firstn (Z.to_nat a) (device_array.shape input)
                        ++ skipn (S (Z.to_nat a)) (device_array.shape input))
                     ++ 1%nat
                     :: skipn (Z.to_nat a)
                          (firstn (Z.to_nat a) (device_array.shape input)
                           ++ skipn (S (Z.to_nat a))
                                (device_array.shape input)))%list ->
            exists data,
              xt_binary f T x y = OK (device_array.shape input, data)).
  { intros f x y Hx Hy. unfold xt_binary. rewrite Hx, Hy, Hb.
    eexists; reflexivity. }
  split.
  - unfold PyHostOp_softmax. cbv zeta. rewrite Hax, HT.
    unfold bind at 1. unfold lift at 1. unfold OK at 1. cbv beta iota.
    unfold bind at 1. unfold lift at 1. cbn [check_out_same]. unfold OK at 1.
    cbv beta iota.
    unfold bind at 1. unfold map_xtensor at 1. unfold OK at 1. cbv beta iota.
    destruct (Hbin SubtractFunctor
                (device_array.shape input,
                 map (View T) (lookup (device_array.storage input) (cells h)))
                (xt_expand_dims
                   (xt_amax xt T
                      (device_array.shape input,
                       map (View T)
                         (lookup (device_array.storage input) (cells h))) a) a))
      as [d1 E1]; [reflexivity | cbn [xt_expand_dims fst]; now rewrite Hamax |].
    unfold bind at 1. unfold lift at 1. rewrite E1. unfold OK at 1.
    cbv beta iota. cbn [fst snd].
    match goal with
    | |- context [xt_binary DivideFunctor T ?x ?y] =>
        destruct (Hbin DivideFunctor x y) as [d2 E2];
          [reflexivity | cbn [xt_expand_dims fst]; now rewrite Hsum |]
    end.
    unfold bind at 1. unfold lift at 1. rewrite E2. unfold OK at 1.
    cbv beta iota. cbn [fst snd].
    unfold bind, emplace_out, for_host, map_xtensor_w, ret, OK.
    eexists; eexists. split; [reflexivity|]. split; reflexivity.
  - unfold PyHostOp_log_softmax. cbv zeta. rewrite Hax, HT.
    unfold bind at 1. unfold lift at 1. unfold OK at 1. cbv beta iota.
    unfold bind at 1. unfold lift at 1. cbn [check_out_same]. unfold OK at 1.
    cbv beta iota.
    unfold bind at 1. unfold map_xtensor at 1. unfold OK at 1. cbv beta iota.
    destruct (Hbin SubtractFunctor
                (device_array.shape input,
                 map (View T) (lookup (device_array.storage input) (cells h)))
                (xt_expand_dims
                   (xt_amax xt T
                      (device_array.shape input,
                       map (View T)
                         (lookup (device_array.storage input) (cells h))) a) a))
      as [d1 E1]; [reflexivity | cbn [xt_expand_dims fst]; now rewrite Hamax |].
    unfold bind at 1. unfold lift at 1. rewrite E1. unfold OK at 1.
    cbv beta iota. cbn [fst snd].
    match goal with
    | |- context [xt_binary SubtractFunctor T ?x ?y] =>
        destruct (Hbin SubtractFunctor x y) as [d2 E2];
          [reflexivity | cbn [xt_expand_dims fst]; now rewrite Hsum |]
    end.
    unfold bind at 1. unfold lift at 1. rewrite E2. unfold OK at 1.
    cbv beta iota. cbn [fst snd].
    unfold bind, emplace_out, for_host, map_xtensor_w, ret, OK.
    eexists; eexists. split; [reflexivity|]. split; reflexivity.
Qed.

Lemma X23_softmax_witness :
  exists r h',
    PyHostOp_softmax example_xtensor
      (device_array.Make 0 0 [2%nat; 3%nat] float32 false) (-1) None false
      (MkHost 1 [(0%nat, repeat (Bits 0) 6)] []) = (OK r, h') /\
    device_array.dtype r = float32 /\
    device_array.shape r = [2%nat; 3%nat].
Proof.
  exact (proj1 (X23_softmax_keeps_dtype_and_shape example_xtensor
           (device_array.Make 0 0 [2%nat; 3%nat] float32 false) (-1) 1 false
           (MkHost 1 [(0%nat, repeat (Bits 0) 6)] []) EltTy.float
           (fun _ _ _ => eq_refl) (fun _ _ _ => eq_refl) eq_refl eq_refl)).
Defined.

(* ------------------------------------------------------------------------- *)
(** ** The frame theorems on examples *)

Lemma X15_conversion_frame_witness :
  lookup 0%nat
    (cells (snd (GenericElementwiseConvert ConvertRoundFunctor_Invoke
                   (device_array.Make 0 0 [2%nat] float32 false) (Some int8)
                   None false
                   (MkHost 1 [(0%nat, [Bits 1; Bits 2])] []))))
  = [Bits 1; Bits 2].
Proof.
  refine (proj2 (proj2 (proj2 (X15_conversion_frame round
            (device_array.Make 0 0 [2%nat] float32 false) (Some int8) None
            false (MkHost 1 [(0%nat, [Bits 1; Bits 2])] []))))
          _ _).
  - cbn. lia.
  - intros [].
Defined.

Lemma X16_simple_ops_frame_witness :
  lookup 0%nat
    (cells (snd (PyHostOp_log example_xtensor
                   (device_array.Make 0 0 [2%nat] float16 false) None false
                   (MkHost 1 [(0%nat, [Bits 1; Bits 2])] []))))
  = [Bits 1; Bits 2].
Proof.
  refine (proj2 (proj2 (proj1 (proj2 (proj2 (proj2
            (X16_simple_ops_frame example_xtensor
               (device_array.Make 0 0 [2%nat] float16 false) 0 0 [] None
               false false))))
            (MkHost 1 [(0%nat, [Bits 1; Bits 2])] []))) 0%nat _ _).
  - cbn. lia.
  - intros [].
Defined.

Lemma X17_elementwise_frame_witness :
  lookup 0%nat
    (cells (snd (ElementwiseOperation AddFunctor
                   (PyDeviceArray (device_array.Make 0 0 [2%nat] int8 false))
                   (PyDeviceArray (device_array.Make 1 0 [2%nat] float32 false))
                   None false
                   (MkHost 2 [(0%nat, [Bits 1; Bits 2]);
                              (1%nat, [Bits 3; Bits 4])] []))))
  = [Bits 1; Bits 2].
Proof.
  refine (proj2 (proj2 (X17_elementwise_frame AddFunctor
            (PyDeviceArray (device_array.Make 0 0 [2%nat] int8 false))
            (PyDeviceArray (device_array.Make 1 0 [2%nat] float32 false))
            None false
            (MkHost 2 [(0%nat, [Bits 1; Bits 2]);
                       (1%nat, [Bits 3; Bits 4])] [])))
          0%nat _ _).
  - cbn. lia.
  - intros [].
Defined.
